(** * Lavalink-Monitor: the helper functions of [utils.py]

    A shallow embedding of the formatting and classification helpers of
    [utils.py], and the properties its specification states about them.

    Modelling conventions.
    - A Python number (int or float) is modelled by the rational it denotes,
      a [Qc]; comparisons are exact, as they are in Python.  The products
      and quotients of metric values ([stats.cpu * 100], the RAM ratio, the
      load percentage) are rounded to binary64 as the interpreter rounds
      them ([round64]); overflow to infinity and integers beyond 2^53 are
      left out.  The ratios of the counters, [calculate_percentage] and
      the quotients of [format_bytes] and [format_uptime] are kept exact.
    - The records the monitor passes around are Python dicts; they are
      modelled as [gmap string value] over a small universe of dynamic
      values, and a failing operation raises the exception Python raises.
    - [HEALTH_THRESHOLDS] and [EMOJIS] come from [config.py], which is not
      part of the sources at hand: they are parameters of the development. *)

From Stdlib Require Import ZArith QArith Qpower Qcanon Qabs Qround Lqa.
From Stdlib Require Import String Ascii DecimalString Lia.
From stdpp Require Import gmap strings list fin_maps.

Set Warnings "-register-all".

Open Scope string_scope.

(* ===================================================================== *)
(** * Part I: the model                                                   *)
(* ===================================================================== *)

(** ** Exceptions and results *)

Inductive exn : Type :=
  | KeyError
  | TypeError
  | AttributeError
  | ZeroDivisionError.

Inductive result (A : Type) : Type :=
  | Ok (a : A)
  | Raise (e : exn).

Arguments Ok {A} a.
Arguments Raise {A} e.

(** Sequencing: the first exception raised aborts the computation.
    [x ← r; k] is stdpp's notation for [mbind (λ x, k) r]. *)
#[export] Instance result_bind : MBind result := λ A B k r,
  match r with
  | Ok a => k a
  | Raise e => Raise e
  end.

Definition returns {A : Type} (r : result A) : Prop := ∃ a, r = Ok a.

(** ** Dynamic values *)

(** The values the functions inspect: [None], booleans, numbers and
    (nested) dicts with string keys. *)
Inductive value : Type :=
  | VNone
  | VBool (b : bool)
  | VNum (q : Qc)
  | VDict (d : gmap string value).

(** [bool] is a subclass of [int]: [True] and [False] count as 1 and 0. *)
Definition as_number (v : value) : option Qc :=
  match v with
  | VNum q => Some q
  | VBool true => Some (Q2Qc 1)
  | VBool false => Some (Q2Qc 0)
  | _ => None
  end.

(** Truth value of an object, as [if v:] tests it. *)
Definition truthy (v : value) : bool :=
  match v with
  | VNone => false
  | VBool b => b
  | VNum q => negb (bool_decide (q = Q2Qc 0))
  | VDict d => negb (bool_decide (size d = 0%nat))
  end.

(** [d.get(key, default)] *)
Definition py_get (d : value) (key : string) (default : value) : result value :=
  match d with
  | VDict m => Ok (match m !! key with Some v => v | None => default end)
  | _ => Raise AttributeError
  end.

(** [d[key]] *)
Definition py_getitem (d : value) (key : string) : result value :=
  match d with
  | VDict m => match m !! key with Some v => Ok v | None => Raise KeyError end
  | _ => Raise TypeError
  end.

(** True division of two numbers, exact: used for the ratios of the
    counters and in [calculate_percentage], whose returned float is
    modelled by the number it approximates. *)
Definition num_truediv (a b : Qc) : result Qc :=
  if bool_decide (b = Q2Qc 0) then Raise ZeroDivisionError else Ok (a / b)%Qc.

(** Rounding to the nearest integer, ties to the even one. *)
Definition round_half_even (q : Q) : Z :=
  let n := Qnum q in
  let d := Zpos (Qden q) in
  let f := (n / d)%Z in
  let r := (n mod d)%Z in
  if (2 * r <? d)%Z then f
  else if (d <? 2 * r)%Z then (f + 1)%Z
  else if Z.even f then f else (f + 1)%Z.

(** ** Binary64 arithmetic *)

(** [floor (log2 (a / b))]: the binary exponent of a positive rational. *)
Definition log2_floor (a b : positive) : Z :=
  let e := (Z.log2 (Zpos a) - Z.log2 (Zpos b))%Z in
  if Qle_bool (2 ^ e) (Zpos a # b) then e else (e - 1)%Z.

(** The binary64 number nearest to [a / b], ties to the even significand:
    53 significant bits, and a unit in the last place of at least
    [2 ^ -1074] (subnormal numbers). *)
Definition round64_pos (a b : positive) : Q :=
  let e := log2_floor a b in
  let p := Z.max (e - 52) (-1074) in
  inject_Z (round_half_even ((Zpos a # b) / 2 ^ p)) * 2 ^ p.

Definition round64 (q : Q) : Q :=
  match Qnum q with
  | Z0 => 0
  | Zpos a => round64_pos a (Qden q)
  | Zneg a => - round64_pos a (Qden q)
  end.

(** A float literal, and the product and the quotient of two floats: the
    exact result rounded once.  An int operand below 2^53 converts to
    float without loss, and the product of two such ints below 2^53 is
    exact either way. *)
Definition float_lit (q : Q) : Qc := Q2Qc (round64 q).

Definition float_mul (x y : Qc) : Qc := Q2Qc (round64 (x * y)).

Definition float_div (x y : Qc) : Qc := Q2Qc (round64 (x / y)).

Definition float_truediv (x y : Qc) : result Qc :=
  if bool_decide (y = Q2Qc 0) then Raise ZeroDivisionError
  else Ok (float_div x y).

(** [a * b] *)
Definition py_mul (a b : value) : result value :=
  match as_number a, as_number b with
  | Some x, Some y => Ok (VNum (float_mul x y))
  | _, _ => Raise TypeError
  end.

(** [a / b] *)
Definition py_truediv (a b : value) : result value :=
  match as_number a, as_number b with
  | Some x, Some y => q ← float_truediv x y ; Ok (VNum q)
  | _, _ => Raise TypeError
  end.

(** [a < t] for a threshold [t] taken from the configuration. *)
Definition py_lt (a : value) (t : Qc) : result bool :=
  match as_number a with
  | Some x => Ok (bool_decide (x < t)%Qc)
  | None => Raise TypeError
  end.

(** ** The configuration tables *)

(** [EMOJIS]: the four keys the module reads. *)
Record emoji_table : Type := {
  emoji_good : string;
  emoji_moderate : string;
  emoji_critical : string;
  emoji_offline : string
}.

Definition emojis_distinct (E : emoji_table) : Prop :=
  NoDup [emoji_good E; emoji_moderate E; emoji_critical E; emoji_offline E].

(** A configuration to run the functions on. *)
Definition sample_EMOJIS : emoji_table :=
  {| emoji_good := "(green)"; emoji_moderate := "(yellow)";
     emoji_critical := "(red)"; emoji_offline := "(black)" |}.


Definition sample_THRESHOLDS : gmap string (gmap string Qc) :=
  <["cpu" := <["good" := Q2Qc 50]> (<["moderate" := Q2Qc 80]> ∅)]>
  (<["ram" := <["good" := Q2Qc 60]> (<["moderate" := Q2Qc 85]> ∅)]>
  (<["disk" := <["good" := Q2Qc 70]> (<["moderate" := Q2Qc 90]> ∅)]>
  (<["ping" := <["good" := Q2Qc 100]> (<["moderate" := Q2Qc 300]> ∅)]> ∅))).

(** A table whose pairs are not in order: the [cpu] entry names only
    [good], above the default 80 of [moderate]; the [ram] entry names a
    [good] above its [moderate]. *)
Definition unordered_THRESHOLDS : gmap string (gmap string Qc) :=
  <["cpu" := <["good" := Q2Qc 90]> ∅]>
  (<["ram" := <["good" := Q2Qc 90]> (<["moderate" := Q2Qc 80]> ∅)]> ∅).

Section Health.

Variable EMOJIS : emoji_table.
Variable HEALTH_THRESHOLDS : gmap string (gmap string Qc).

(** ** [get_health_emoji] *)

Definition good_threshold_of (metric_type : string) : Qc :=
  let thresholds := default ∅ (HEALTH_THRESHOLDS !! metric_type) in
  default (Q2Qc 50) (thresholds !! "good").

Definition moderate_threshold_of (metric_type : string) : Qc :=
  let thresholds := default ∅ (HEALTH_THRESHOLDS !! metric_type) in
  default (Q2Qc 80) (thresholds !! "moderate").

Definition get_health_emoji (v : value) (metric_type : string) : result string :=
  match v with
  | VNone => Ok (emoji_offline EMOJIS)
  | _ =>
    let good_threshold := good_threshold_of metric_type in
    let moderate_threshold := moderate_threshold_of metric_type in
    below_good ← py_lt v good_threshold ;
    if below_good : bool then Ok (emoji_good EMOJIS)
    else
      below_moderate ← py_lt v moderate_threshold ;
      if below_moderate : bool then Ok (emoji_moderate EMOJIS)
      else Ok (emoji_critical EMOJIS)
  end.

(** ** [get_overall_health] *)

(** The three counters of the aggregator. *)
Record counters : Type := {
  critical_count : nat;
  moderate_count : nat;
  total_metrics : nat
}.

Definition no_metrics : counters :=
  {| critical_count := 0; moderate_count := 0; total_metrics := 0 |}.

(** The counting rule applied after every check:
    [if e == EMOJIS['critical']: critical_count += 1
     elif e == EMOJIS['moderate']: moderate_count += 1
     total_metrics += 1] *)
Definition tally (emoji : string) (st : counters) : counters :=
  if bool_decide (emoji = emoji_critical EMOJIS) then
    {| critical_count := S (critical_count st);
       moderate_count := moderate_count st;
       total_metrics := S (total_metrics st) |}
  else if bool_decide (emoji = emoji_moderate EMOJIS) then
    {| critical_count := critical_count st;
       moderate_count := S (moderate_count st);
       total_metrics := S (total_metrics st) |}
  else
    {| critical_count := critical_count st;
       moderate_count := moderate_count st;
       total_metrics := S (total_metrics st) |}.

(** The body of [for node in lavalink_data]. *)
Definition check_node (node : value) (st : counters) : result counters :=
  online ← py_get node "online" (VBool false) ;
  if truthy online then
    stats ← py_getitem node "stats" ;
    (* CPU check *)
    cpu ← py_getitem stats "cpu" ;
    cpu_percent ← py_mul cpu (VNum (Q2Qc 100)) ;
    cpu_emoji ← get_health_emoji cpu_percent "cpu" ;
    let st := tally cpu_emoji st in
    (* RAM check *)
    memory ← py_getitem stats "memory" ;
    used ← py_getitem memory "used" ;
    memory' ← py_getitem stats "memory" ;
    allocated ← py_getitem memory' "allocated" ;
    ratio ← py_truediv used allocated ;
    ram_percent ← py_mul ratio (VNum (Q2Qc 100)) ;
    ram_emoji ← get_health_emoji ram_percent "ram" ;
    let st := tally ram_emoji st in
    (* Ping check *)
    ping ← py_get node "ping" (VNum (Q2Qc 999)) ;
    ping_emoji ← get_health_emoji ping "ping" ;
    Ok (tally ping_emoji st)
  else Ok st.

Fixpoint check_nodes (lavalink_data : list value) (st : counters) : result counters :=
  match lavalink_data with
  | [] => Ok st
  | node :: rest => st' ← check_node node st ; check_nodes rest st'
  end.

(** The body of [if system_data:]. *)
Definition check_system (system_data : value) (st : counters) : result counters :=
  if truthy system_data then
    cpu_percent ← py_getitem system_data "cpu_percent" ;
    system_cpu_emoji ← get_health_emoji cpu_percent "cpu" ;
    let st := tally system_cpu_emoji st in
    memory_percent ← py_getitem system_data "memory_percent" ;
    system_ram_emoji ← get_health_emoji memory_percent "ram" ;
    let st := tally system_ram_emoji st in
    disk_percent ← py_getitem system_data "disk_percent" ;
    system_disk_emoji ← get_health_emoji disk_percent "disk" ;
    Ok (tally system_disk_emoji st)
  else Ok st.

(** The counters when the two loops are done (lines 40 to 95). *)
Definition count_metrics (lavalink_data : list value) (system_data : value)
  : result counters :=
  st ← check_nodes lavalink_data no_metrics ;
  check_system system_data st.

Definition of_count (n : nat) : Qc := Q2Qc (inject_Z (Z.of_nat n)).

(** "Determine overall health" (lines 97 to 109). *)
Definition determine_overall_health (st : counters) : result string :=
  if bool_decide (total_metrics st = 0) then Ok "critical"
  else
    critical_ratio ←
      num_truediv (of_count (critical_count st)) (of_count (total_metrics st)) ;
    moderate_ratio ←
      num_truediv (of_count (moderate_count st)) (of_count (total_metrics st)) ;
    if bool_decide (Q2Qc 0.3 < critical_ratio)%Qc then Ok "critical"
    else if bool_decide (Q2Qc 0.1 < critical_ratio)%Qc
            || bool_decide (Q2Qc 0.5 < moderate_ratio)%Qc then Ok "moderate"
    else Ok "good".

Definition get_overall_health (lavalink_data : list value) (system_data : value)
  : result string :=
  st ← count_metrics lavalink_data system_data ;
  determine_overall_health st.

(** ** [get_load_indicator] *)

(** The source at hand stops in the middle of the function, after the
    [elif] that follows the "good" branch; what the remaining branches
    return is a parameter. *)
Variable load_indicator_rest : Qc → result string.

Definition get_load_indicator (load_avg cpu_count : Qc) : result string :=
  if bool_decide (cpu_count = Q2Qc 0) then Ok (emoji_offline EMOJIS)
  else
    ratio ← float_truediv load_avg cpu_count ;
    let load_percentage := float_mul ratio (Q2Qc 100) in
    if bool_decide (load_percentage < Q2Qc 70)%Qc then Ok (emoji_good EMOJIS)
    else load_indicator_rest load_percentage.

End Health.

(** ** [calculate_percentage] *)

Definition calculate_percentage (v total : Qc) : result Qc :=
  if bool_decide (total = Q2Qc 0) then Ok (Q2Qc 0.0)
  else ratio ← num_truediv v total ; Ok (ratio * Q2Qc 100)%Qc.

(** ** [format_bytes] *)

(** [str(n)] for an int: its decimal numeral. *)
Definition str_of_int (n : Z) : string := NilZero.string_of_int (Z.to_int n).

(** [format(x, ".1f")]: sign, integer part, a point and one digit. *)
Definition format_1f (x : Qc) : string :=
  let tenths := round_half_even (Qabs x * 10) in
  (if bool_decide (x < Q2Qc 0)%Qc then "-" else "")
  +:+ str_of_int (tenths / 10) +:+ "." +:+ str_of_int (tenths mod 10).

Definition of_int (n : Z) : Qc := Q2Qc (inject_Z n).

(** The byte count is an integer, as the monitoring probes report it. *)
Definition format_bytes (bytes_value : Z) : string :=
  if (bytes_value <? 1024)%Z then
    str_of_int bytes_value +:+ "B"
  else if (bytes_value <? 1024 ^ 2)%Z then
    format_1f (of_int bytes_value / of_int 1024)%Qc +:+ "KB"
  else if (bytes_value <? 1024 ^ 3)%Z then
    format_1f (of_int bytes_value / of_int (1024 ^ 2))%Qc +:+ "MB"
  else
    format_1f (of_int bytes_value / of_int (1024 ^ 3))%Qc +:+ "GB".

(** ** [truncate_string] *)

Fixpoint str_take (n : nat) (s : string) : string :=
  match n, s with
  | S n', String c s' => String c (str_take n' s')
  | _, _ => ""
  end.

(** [text[:stop]]: a negative [stop] counts from the end of the string. *)
Definition py_slice_to (text : string) (stop : Z) : string :=
  let len := Z.of_nat (String.length text) in
  let stop := if (stop <? 0)%Z then Z.max 0 (len + stop) else Z.min stop len in
  str_take (Z.to_nat stop) text.

Definition truncate_string (text : string) (max_length : Z) : string :=
  if (Z.of_nat (String.length text) <=? max_length)%Z then text
  else py_slice_to text (max_length - 3) +:+ "...".

Definition truncate_string_default (text : string) : string :=
  truncate_string text 100.

(** ** The data model and the rules of the specification

    The definitions of this part follow the words of the specification
    (its sections 3, 4.1 and 4.2), not the code: typed records for the
    node and system records, the severity bands, and the list of checks
    the aggregator is to perform.  The properties below compare them with
    the functions embedded above. *)

(** The severity bands of section 4.1, as labels. *)
Inductive level : Type := Good | Moderate | Critical | Offline.

#[export] Instance level_eq_dec : EqDecision level.
Proof. solve_decision. Defined.

Definition emoji_of (E : emoji_table) (l : level) : string :=
  match l with
  | Good => emoji_good E
  | Moderate => emoji_moderate E
  | Critical => emoji_critical E
  | Offline => emoji_offline E
  end.

(** A metric value classified against the threshold pair of its type. *)
Definition classify (TH : gmap string (gmap string Qc))
    (v : option Qc) (metric_type : string) : level :=
  match v with
  | None => Offline
  | Some x =>
    if bool_decide (x < good_threshold_of TH metric_type)%Qc then Good
    else if bool_decide (x < moderate_threshold_of TH metric_type)%Qc then Moderate
    else Critical
  end.

(** A node record: [online], [stats.cpu], [stats.memory.used],
    [stats.memory.allocated] and an optional [ping]. *)
Record node_record : Type := {
  nr_online : bool;
  nr_cpu : Qc;
  nr_used : Qc;
  nr_allocated : Qc;
  nr_ping : option Qc
}.

(** A system record: [cpu_percent], [memory_percent], [disk_percent]. *)
Record system_record : Type := {
  sr_cpu_percent : Qc;
  sr_memory_percent : Qc;
  sr_disk_percent : Qc
}.

(** The dicts that carry these records. *)
Definition encode_memory (n : node_record) : value :=
  VDict (<["used" := VNum (nr_used n)]> (<["allocated" := VNum (nr_allocated n)]> ∅)).

Definition encode_stats (n : node_record) : value :=
  VDict (<["cpu" := VNum (nr_cpu n)]> (<["memory" := encode_memory n]> ∅)).

Definition encode_node (n : node_record) : value :=
  let node : gmap string value :=
    <["online" := VBool (nr_online n)]> (<["stats" := encode_stats n]> ∅) in
  VDict (match nr_ping n with
         | Some p => <["ping" := VNum p]> node
         | None => node
         end).

Definition encode_system (s : option system_record) : value :=
  match s with
  | Some r =>
    VDict (<["cpu_percent" := VNum (sr_cpu_percent r)]>
          (<["memory_percent" := VNum (sr_memory_percent r)]>
          (<["disk_percent" := VNum (sr_disk_percent r)]> ∅)))
  | None => VNone
  end.

(** The checks section 4.2 prescribes for a node, a system record and a
    whole input: each a value and the metric type it is classified as. *)
Definition spec_node_checks (n : node_record) : list (Qc * string) :=
  if nr_online n then
    [ (float_mul (nr_cpu n) (Q2Qc 100), "cpu");
      (float_mul (float_div (nr_used n) (nr_allocated n)) (Q2Qc 100), "ram");
      (default (Q2Qc 999) (nr_ping n), "ping") ]
  else [].

Definition spec_system_checks (s : option system_record) : list (Qc * string) :=
  match s with
  | Some r =>
    [ (sr_cpu_percent r, "cpu"); (sr_memory_percent r, "ram");
      (sr_disk_percent r, "disk") ]
  | None => []
  end.

Definition spec_checks (nodes : list node_record) (s : option system_record)
  : list (Qc * string) :=
  flat_map spec_node_checks nodes ++ spec_system_checks s.

(** The counting rule of section 4.2 run over a list of checks. *)
Definition tally_checks (E : emoji_table) (TH : gmap string (gmap string Qc))
    (checks : list (Qc * string)) (st : counters) : counters :=
  fold_left (λ st c, tally E (emoji_of E (classify TH (Some c.1) c.2)) st)
    checks st.

Definition count_level (TH : gmap string (gmap string Qc)) (l : level)
    (checks : list (Qc * string)) : nat :=
  length (filter (λ c, classify TH (Some c.1) c.2 = l) checks).


(** The nodes whose RAM ratio has a zero denominator, on the dicts
    themselves. *)
Definition node_online (node : value) : bool :=
  match py_get node "online" (VBool false) with
  | Ok v => truthy v
  | Raise _ => false
  end.

Definition ram_denominator (node : value) : result value :=
  stats ← py_getitem node "stats" ;
  memory ← py_getitem stats "memory" ;
  py_getitem memory "allocated".

Definition zero_allocated (node : value) : Prop :=
  node_online node = true ∧
  ∃ a, ram_denominator node = Ok a ∧ as_number a = Some (Q2Qc 0).

(** Records to run the aggregator on. *)
Definition node_busy : node_record :=
  {| nr_online := true; nr_cpu := float_lit 0.9; nr_used := Q2Qc 3;
     nr_allocated := Q2Qc 4; nr_ping := None |}.

Definition node_idle : node_record :=
  {| nr_online := true; nr_cpu := float_lit 0.1; nr_used := Q2Qc 1;
     nr_allocated := Q2Qc 4; nr_ping := Some (Q2Qc 20) |}.

Definition node_down : node_record :=
  {| nr_online := false; nr_cpu := Q2Qc 0; nr_used := Q2Qc 0;
     nr_allocated := Q2Qc 0; nr_ping := None |}.

Definition node_no_memory : node_record :=
  {| nr_online := true; nr_cpu := float_lit 0.2; nr_used := Q2Qc 0;
     nr_allocated := Q2Qc 0; nr_ping := Some (Q2Qc 20) |}.

Definition system_loaded : system_record :=
  {| sr_cpu_percent := Q2Qc 95; sr_memory_percent := Q2Qc 70;
     sr_disk_percent := Q2Qc 40 |}.


(** A node whose CPU share is the float just below 0.8. *)
Definition node_edge : node_record :=
  {| nr_online := true; nr_cpu := float_lit 0.7999999999999999;
     nr_used := Q2Qc 1; nr_allocated := Q2Qc 4; nr_ping := Some (Q2Qc 20) |}.

(** Characters of a decimal numeral. *)
Definition is_digit (c : ascii) : bool :=
  (48 <=? nat_of_ascii c)%nat && (nat_of_ascii c <=? 57)%nat.

Fixpoint all_digits (s : string) : bool :=
  match s with
  | "" => true
  | String c s' => is_digit c && all_digits s'
  end.

(** [out] prints the quotient [n / unit] with one decimal digit, followed
    by [suffix]: a numeral, a point, one digit, and the printed value
    [whole.digit] is within half a tenth of the quotient. *)
Definition one_decimal (n unit : Z) (suffix out : string) : Prop :=
  ∃ whole digit : Z,
    (0 ≤ whole)%Z ∧ (0 ≤ digit ≤ 9)%Z ∧
    out = str_of_int whole +:+ "." +:+ str_of_int digit +:+ suffix ∧
    all_digits (str_of_int whole) = true ∧
    String.length (str_of_int digit) = 1 ∧
    (2 * Z.abs (unit * (10 * whole + digit) - 10 * n) ≤ unit)%Z.

(** ** [format_uptime] *)

(** [int(x)]: the integer part, rounding toward zero. *)
Definition py_int (x : Qc) : Z := Z.quot (Qnum x) (Zpos (Qden x)).

(** [x // y] and [x % y], for the nonzero constants the module divides by:
    the quotient is rounded down and the remainder has the sign of [y]. *)
Definition py_floordiv (x y : Qc) : Qc := of_int (Qfloor (x / y)%Qc).

Definition py_mod (x y : Qc) : Qc := (x - y * py_floordiv x y)%Qc.

Definition format_uptime (seconds : Qc) : string :=
  if bool_decide (seconds < of_int 60)%Qc then
    str_of_int (py_int seconds) +:+ "s"
  else if bool_decide (seconds < of_int 3600)%Qc then
    let minutes := py_int (py_floordiv seconds (of_int 60)) in
    let secs := py_int (py_mod seconds (of_int 60)) in
    str_of_int minutes +:+ "m " +:+ str_of_int secs +:+ "s"
  else if bool_decide (seconds < of_int 86400)%Qc then
    let hours := py_int (py_floordiv seconds (of_int 3600)) in
    let minutes :=
      py_int (py_floordiv (py_mod seconds (of_int 3600)) (of_int 60)) in
    str_of_int hours +:+ "h " +:+ str_of_int minutes +:+ "m"
  else
    let days := py_int (py_floordiv seconds (of_int 86400)) in
    let hours :=
      py_int (py_floordiv (py_mod seconds (of_int 86400)) (of_int 3600)) in
    str_of_int days +:+ "d " +:+ str_of_int hours +:+ "h".

(** ** [get_status_color] *)

Definition colors : gmap string Z :=
  <["good" := 0x00ff00%Z]>
  (<["moderate" := 0xff8800%Z]>
  (<["critical" := 0xff0000%Z]>
  (<["offline" := 0x808080%Z]> ∅))).

(** [colors.get(health_status, colors['offline'])]: the default is looked
    up first. *)
Definition get_status_color (health_status : string) : result Z :=
  offline ← match colors !! "offline" with
            | Some c => Ok c
            | None => Raise KeyError
            end ;
  Ok (default offline (colors !! health_status)).

(** ** Notions the further properties are stated with *)

(** Counters added field by field. *)
Definition counters_plus (a b : counters) : counters :=
  {| critical_count := critical_count a + critical_count b;
     moderate_count := moderate_count a + moderate_count b;
     total_metrics := total_metrics a + total_metrics b |}.

(** The bands in order of severity. *)
Definition severity (l : level) : nat :=
  match l with
  | Offline => 0
  | Good => 1
  | Moderate => 2
  | Critical => 3
  end.

Definition is_dict (v : value) : Prop :=
  match v with
  | VDict _ => True
  | _ => False
  end.

(** [format_uptime] on a whole number of seconds, with integer division
    and remainder. *)
Definition uptime_of_whole (n : Z) : string :=
  if (n <? 60)%Z then str_of_int n +:+ "s"
  else if (n <? 3600)%Z then
    str_of_int (n / 60) +:+ "m " +:+ str_of_int (n mod 60) +:+ "s"
  else if (n <? 86400)%Z then
    str_of_int (n / 3600) +:+ "h " +:+ str_of_int (n mod 3600 / 60) +:+ "m"
  else
    str_of_int (n / 86400) +:+ "d " +:+ str_of_int (n mod 86400 / 3600) +:+ "h".

(** Nodes under moderate load, to run the aggregator on. *)
Definition node_strained : node_record :=
  {| nr_online := true; nr_cpu := float_lit 0.6; nr_used := Q2Qc 7;
     nr_allocated := Q2Qc 10; nr_ping := Some (Q2Qc 150) |}.

Definition node_warm : node_record :=
  {| nr_online := true; nr_cpu := float_lit 0.6; nr_used := Q2Qc 1;
     nr_allocated := Q2Qc 10; nr_ping := Some (Q2Qc 20) |}.

Definition node_hot : node_record :=
  {| nr_online := true; nr_cpu := float_lit 0.95; nr_used := Q2Qc 1;
     nr_allocated := Q2Qc 10; nr_ping := Some (Q2Qc 20) |}.

(** The entries the aggregator reads from a system record. *)
Definition system_fields : list string :=
  ["cpu_percent"; "memory_percent"; "disk_percent"].

(** A system record whose three metrics are all [None]. *)
Definition system_unknown : value :=
  VDict (<["cpu_percent" := VNone]>
        (<["memory_percent" := VNone]>
        (<["disk_percent" := VNone]> ∅))).

(** A value [get_health_emoji] can classify: [None] or a number. *)
Definition classifiable (v : value) : Prop :=
  v = VNone ∨ is_Some (as_number v).

(* ===================================================================== *)
(** * Part II: properties                                                 *)
(* ===================================================================== *)

(** ** Sequencing *)

Lemma bind_Ok {A B : Type} (a : A) (k : A → result B) :
  (x ← Ok a ; k x) = k a.
Proof. reflexivity. Qed.

Lemma bind_Raise {A B : Type} (e : exn) (k : A → result B) :
  (x ← Raise e ; k x) = Raise e.
Proof. reflexivity. Qed.

Lemma bind_Ok_inv {A B : Type} (r : result A) (k : A → result B) (b : B) :
  (x ← r ; k x) = Ok b → ∃ a, r = Ok a ∧ k a = Ok b.
Proof. destruct r as [a|e]; [eauto | discriminate]. Qed.

Lemma bind_Raise_inv {A B : Type} (r : result A) (k : A → result B) (e : exn) :
  (x ← r ; k x) = Raise e → r = Raise e ∨ ∃ a, r = Ok a ∧ k a = Raise e.
Proof. destruct r as [a|e']; simpl; intros H; [right; eauto | left; congruence]. Qed.

(** ** Arithmetic on numbers *)

Lemma py_mul_VNum (a b : Qc) :
  py_mul (VNum a) (VNum b) = Ok (VNum (float_mul a b)).
Proof. reflexivity. Qed.

Lemma py_truediv_VNum (a b : Qc) :
  py_truediv (VNum a) (VNum b) =
    if bool_decide (b = Q2Qc 0) then Raise ZeroDivisionError
    else Ok (VNum (float_div a b)).
Proof. unfold py_truediv, float_truediv. simpl. by case_bool_decide. Qed.

Lemma float_truediv_Ok (a b : Qc) :
  b ≠ Q2Qc 0 → float_truediv a b = Ok (float_div a b).
Proof. intros Hb. unfold float_truediv. by rewrite bool_decide_eq_false_2. Qed.

Lemma num_truediv_Ok (a b : Qc) : b ≠ Q2Qc 0 → num_truediv a b = Ok (a / b)%Qc.
Proof. intros Hb. unfold num_truediv. by rewrite bool_decide_eq_false_2. Qed.

(** ** [get_health_emoji] *)

Section HealthEmoji.

Variable EMOJIS : emoji_table.
Variable HEALTH_THRESHOLDS : gmap string (gmap string Qc).

Lemma thresholds_default (metric_type : string) :
  HEALTH_THRESHOLDS !! metric_type = None →
  good_threshold_of HEALTH_THRESHOLDS metric_type = Q2Qc 50 ∧
  moderate_threshold_of HEALTH_THRESHOLDS metric_type = Q2Qc 80.
Proof.
  intros Hnone. unfold good_threshold_of, moderate_threshold_of.
  rewrite Hnone. simpl. by rewrite !lookup_empty.
Qed.

(** On a number, the emoji is the one of the band [classify] computes. *)
Lemma get_health_emoji_number (v : value) (x : Qc) (metric_type : string) :
  v ≠ VNone → as_number v = Some x →
  get_health_emoji EMOJIS HEALTH_THRESHOLDS v metric_type =
    Ok (emoji_of EMOJIS (classify HEALTH_THRESHOLDS (Some x) metric_type)).
Proof.
  intros Hv Hx. unfold get_health_emoji, classify, py_lt.
  destruct v as [|b|q|d]; try done; rewrite Hx; simpl;
    repeat case_bool_decide; done.
Qed.

Lemma get_health_emoji_VNum (x : Qc) (metric_type : string) :
  get_health_emoji EMOJIS HEALTH_THRESHOLDS (VNum x) metric_type =
    Ok (emoji_of EMOJIS (classify HEALTH_THRESHOLDS (Some x) metric_type)).
Proof. by apply get_health_emoji_number. Qed.

End HealthEmoji.

(** The critical band as the specification words it for C3, from the
    moderate threshold on, fails for a pair that is not in order: in
    [unordered_THRESHOLDS] the pair looked up for [cpu] is 90 and the
    default 80, the pair for [ram] is 90 and 80, and the value 85, not
    below the moderate threshold, gets the good emoji in both. *)
Lemma get_health_emoji_bands_counterexample :
  default (Q2Qc 50) (default ∅ (unordered_THRESHOLDS !! "cpu") !! "good")
    = Q2Qc 90 ∧
  default (Q2Qc 80) (default ∅ (unordered_THRESHOLDS !! "cpu") !! "moderate")
    = Q2Qc 80 ∧
  default (Q2Qc 80) (default ∅ (unordered_THRESHOLDS !! "ram") !! "moderate")
    = Q2Qc 80 ∧
  (Q2Qc 80 ≤ Q2Qc 85)%Qc ∧
  get_health_emoji sample_EMOJIS unordered_THRESHOLDS (VNum (Q2Qc 85)) "cpu"
    = Ok (emoji_good sample_EMOJIS) ∧
  get_health_emoji sample_EMOJIS unordered_THRESHOLDS (VNum (Q2Qc 85)) "ram"
    = Ok (emoji_good sample_EMOJIS) ∧
  emoji_good sample_EMOJIS ≠ emoji_critical sample_EMOJIS.
Proof.
  split; [reflexivity|]. split; [reflexivity|]. split; [reflexivity|].
  split; [by vm_compute|].
  split; [by vm_compute|]. split; [by vm_compute|]. discriminate.
Qed.

(** C3.  Absent value: the offline emoji.  A number is classified
    against the threshold pair looked up for its metric type: the [good]
    and [moderate] entries of [HEALTH_THRESHOLDS[metric_type]], 50 and 80
    standing in for what the table lacks, hence for a type it does not
    know.  Below the good threshold the good emoji; from the good threshold
    up to the moderate one the moderate emoji; and the critical emoji when
    the value is at least the moderate threshold and at least the good one,
    which for a pair in order (good <= moderate) is from the moderate
    threshold on; whatever the metric type. *)
Theorem get_health_emoji_bands
    (EMOJIS : emoji_table) (HEALTH_THRESHOLDS : gmap string (gmap string Qc))
    (metric_type : string) :
  let thresholds := default ∅ (HEALTH_THRESHOLDS !! metric_type) in
  let good_threshold := default (Q2Qc 50) (thresholds !! "good") in
  let moderate_threshold := default (Q2Qc 80) (thresholds !! "moderate") in
  get_health_emoji EMOJIS HEALTH_THRESHOLDS VNone metric_type
    = Ok (emoji_offline EMOJIS) ∧
  (HEALTH_THRESHOLDS !! metric_type = None →
     good_threshold = Q2Qc 50 ∧ moderate_threshold = Q2Qc 80) ∧
  ∀ x : Qc,
    ((x < good_threshold)%Qc →
       get_health_emoji EMOJIS HEALTH_THRESHOLDS (VNum x) metric_type
         = Ok (emoji_good EMOJIS)) ∧
    ((good_threshold ≤ x)%Qc → (x < moderate_threshold)%Qc →
       get_health_emoji EMOJIS HEALTH_THRESHOLDS (VNum x) metric_type
         = Ok (emoji_moderate EMOJIS)) ∧
    ((good_threshold ≤ x)%Qc → (moderate_threshold ≤ x)%Qc →
       get_health_emoji EMOJIS HEALTH_THRESHOLDS (VNum x) metric_type
         = Ok (emoji_critical EMOJIS)) ∧
    ((good_threshold ≤ moderate_threshold)%Qc → (moderate_threshold ≤ x)%Qc →
       get_health_emoji EMOJIS HEALTH_THRESHOLDS (VNum x) metric_type
         = Ok (emoji_critical EMOJIS)).
Proof.
  intros thresholds g m. split; [reflexivity|]. split.
  { intros Hnone. subst g m thresholds. by rewrite Hnone. }
  intros x. rewrite get_health_emoji_VNum.
  unfold classify, good_threshold_of, moderate_threshold_of.
  fold thresholds. fold g m.
  split; [|split; [|split]].
  - intros Hlt. by rewrite bool_decide_eq_true_2.
  - intros Hge Hlt. apply Qcle_not_lt in Hge.
    rewrite bool_decide_eq_false_2 by done. by rewrite bool_decide_eq_true_2.
  - intros Hge Hge'.
    by rewrite !bool_decide_eq_false_2 by by apply Qcle_not_lt.
  - intros Hord Hge.
    assert (¬ (x < m)%Qc) by by apply Qcle_not_lt.
    assert (¬ (x < g)%Qc) by (apply Qcle_not_lt; by apply (Qcle_trans _ m)).
    by rewrite !bool_decide_eq_false_2.
Qed.

Lemma get_health_emoji_bands_witness :
  get_health_emoji sample_EMOJIS sample_THRESHOLDS (VNum (Q2Qc 30)) "cpu"
    = Ok "(green)" ∧
  get_health_emoji sample_EMOJIS sample_THRESHOLDS (VNum (Q2Qc 50)) "cpu"
    = Ok "(yellow)" ∧
  get_health_emoji sample_EMOJIS sample_THRESHOLDS (VNum (Q2Qc 80)) "cpu"
    = Ok "(red)" ∧
  get_health_emoji sample_EMOJIS sample_THRESHOLDS (VNum (Q2Qc 79.5)) "players"
    = Ok "(yellow)" ∧
  get_health_emoji sample_EMOJIS unordered_THRESHOLDS (VNum (Q2Qc 95)) "cpu"
    = Ok "(red)".
Proof.
  destruct (get_health_emoji_bands sample_EMOJIS sample_THRESHOLDS "cpu")
    as (_ & _ & Hcpu).
  destruct (get_health_emoji_bands sample_EMOJIS sample_THRESHOLDS "players")
    as (_ & _ & Hplayers).
  destruct (get_health_emoji_bands sample_EMOJIS unordered_THRESHOLDS "cpu")
    as (_ & _ & Hpartial).
  split; [|split; [|split; [|split]]].
  - apply (Hcpu (Q2Qc 30)). by vm_compute.
  - apply (Hcpu (Q2Qc 50)); by vm_compute.
  - destruct (Hcpu (Q2Qc 80)) as (_ & _ & _ & Hcritical).
    apply Hcritical; by vm_compute.
  - apply (Hplayers (Q2Qc 79.5)); by vm_compute.
  - destruct (Hpartial (Q2Qc 95)) as (_ & _ & Hcritical & _).
    apply Hcritical; by vm_compute.
Defined.

(** ** The aggregator on the records of the data model *)

Lemma encode_node_online (n : node_record) :
  py_get (encode_node n) "online" (VBool false) = Ok (VBool (nr_online n)).
Proof. unfold encode_node. by destruct (nr_ping n). Qed.

Lemma encode_node_stats (n : node_record) :
  py_getitem (encode_node n) "stats" = Ok (encode_stats n).
Proof. unfold encode_node. by destruct (nr_ping n). Qed.

Lemma encode_node_ping (n : node_record) :
  py_get (encode_node n) "ping" (VNum (Q2Qc 999))
    = Ok (VNum (default (Q2Qc 999) (nr_ping n))).
Proof. unfold encode_node. by destruct (nr_ping n). Qed.

Lemma encode_stats_cpu (n : node_record) :
  py_getitem (encode_stats n) "cpu" = Ok (VNum (nr_cpu n)).
Proof. reflexivity. Qed.

Lemma encode_stats_memory (n : node_record) :
  py_getitem (encode_stats n) "memory" = Ok (encode_memory n).
Proof. reflexivity. Qed.

Lemma encode_memory_used (n : node_record) :
  py_getitem (encode_memory n) "used" = Ok (VNum (nr_used n)).
Proof. reflexivity. Qed.

Lemma encode_memory_allocated (n : node_record) :
  py_getitem (encode_memory n) "allocated" = Ok (VNum (nr_allocated n)).
Proof. reflexivity. Qed.

Lemma encode_system_truthy (r : system_record) :
  truthy (encode_system (Some r)) = true.
Proof. reflexivity. Qed.

Lemma encode_system_cpu (r : system_record) :
  py_getitem (encode_system (Some r)) "cpu_percent" = Ok (VNum (sr_cpu_percent r)).
Proof. reflexivity. Qed.

Lemma encode_system_memory (r : system_record) :
  py_getitem (encode_system (Some r)) "memory_percent"
    = Ok (VNum (sr_memory_percent r)).
Proof. reflexivity. Qed.

Lemma encode_system_disk (r : system_record) :
  py_getitem (encode_system (Some r)) "disk_percent" = Ok (VNum (sr_disk_percent r)).
Proof. reflexivity. Qed.

Section Aggregator.

Variable EMOJIS : emoji_table.
Variable HEALTH_THRESHOLDS : gmap string (gmap string Qc).

Lemma tally_checks_app (l1 l2 : list (Qc * string)) (st : counters) :
  tally_checks EMOJIS HEALTH_THRESHOLDS (l1 ++ l2) st
    = tally_checks EMOJIS HEALTH_THRESHOLDS l2
        (tally_checks EMOJIS HEALTH_THRESHOLDS l1 st).
Proof. apply fold_left_app. Qed.

Lemma tally_checks_cons (c : Qc * string) (l : list (Qc * string)) (st : counters) :
  tally_checks EMOJIS HEALTH_THRESHOLDS (c :: l) st
    = tally_checks EMOJIS HEALTH_THRESHOLDS l
        (tally EMOJIS
           (emoji_of EMOJIS (classify HEALTH_THRESHOLDS (Some c.1) c.2)) st).
Proof. reflexivity. Qed.

Lemma check_node_encode (n : node_record) (st : counters) :
  check_node EMOJIS HEALTH_THRESHOLDS (encode_node n) st =
    if nr_online n then
      if bool_decide (nr_allocated n = Q2Qc 0) then Raise ZeroDivisionError
      else Ok (tally_checks EMOJIS HEALTH_THRESHOLDS (spec_node_checks n) st)
    else Ok st.
Proof.
  unfold check_node.
  rewrite encode_node_online, bind_Ok. simpl truthy.
  unfold spec_node_checks. destruct (nr_online n); [|done].
  rewrite encode_node_stats, bind_Ok, encode_stats_cpu, bind_Ok.
  rewrite py_mul_VNum, bind_Ok, get_health_emoji_VNum, bind_Ok.
  rewrite encode_stats_memory, bind_Ok, encode_memory_used, bind_Ok.
  rewrite bind_Ok, encode_memory_allocated, bind_Ok, py_truediv_VNum.
  case_bool_decide; [done|].
  rewrite bind_Ok, py_mul_VNum, bind_Ok, get_health_emoji_VNum, bind_Ok.
  rewrite encode_node_ping, bind_Ok, get_health_emoji_VNum, bind_Ok.
  reflexivity.
Qed.

Lemma check_nodes_encode (nodes : list node_record) (st : counters) :
  Forall (λ n, nr_online n = true → nr_allocated n ≠ Q2Qc 0) nodes →
  check_nodes EMOJIS HEALTH_THRESHOLDS (encode_node <$> nodes) st
    = Ok (tally_checks EMOJIS HEALTH_THRESHOLDS
            (flat_map spec_node_checks nodes) st).
Proof.
  intros Hok. revert st.
  induction Hok as [|n nodes Hn _ IH]; intros st; [reflexivity|].
  rewrite fmap_cons. simpl check_nodes. rewrite check_node_encode.
  simpl flat_map. rewrite tally_checks_app.
  destruct (nr_online n) eqn:Hon.
  - rewrite bool_decide_eq_false_2 by auto. by rewrite bind_Ok, IH.
  - rewrite bind_Ok, IH. unfold spec_node_checks. by rewrite Hon.
Qed.

Lemma check_nodes_encode_zero (nodes : list node_record) (st : counters) :
  Exists (λ n, nr_online n = true ∧ nr_allocated n = Q2Qc 0) nodes →
  check_nodes EMOJIS HEALTH_THRESHOLDS (encode_node <$> nodes) st
    = Raise ZeroDivisionError.
Proof.
  revert st. induction nodes as [|n nodes IH]; intros st Hex.
  - by apply Exists_nil in Hex.
  - rewrite fmap_cons. simpl check_nodes. rewrite check_node_encode.
    destruct (nr_online n) eqn:Hon.
    + case_bool_decide as Hz; [reflexivity|].
      rewrite bind_Ok. apply IH.
      apply Exists_cons in Hex as [[_ Hn]|Hex]; [done|exact Hex].
    + rewrite bind_Ok. apply IH.
      apply Exists_cons in Hex as [[Hn _]|Hex]; [congruence|exact Hex].
Qed.

Lemma check_system_encode (s : option system_record) (st : counters) :
  check_system EMOJIS HEALTH_THRESHOLDS (encode_system s) st
    = Ok (tally_checks EMOJIS HEALTH_THRESHOLDS (spec_system_checks s) st).
Proof.
  destruct s as [r|]; [|reflexivity].
  unfold check_system. rewrite encode_system_truthy.
  rewrite encode_system_cpu, bind_Ok, get_health_emoji_VNum, bind_Ok.
  rewrite encode_system_memory, bind_Ok, get_health_emoji_VNum, bind_Ok.
  by rewrite encode_system_disk, bind_Ok, get_health_emoji_VNum, bind_Ok.
Qed.

Lemma count_metrics_encode (nodes : list node_record) (s : option system_record) :
  Forall (λ n, nr_online n = true → nr_allocated n ≠ Q2Qc 0) nodes →
  count_metrics EMOJIS HEALTH_THRESHOLDS (encode_node <$> nodes) (encode_system s)
    = Ok (tally_checks EMOJIS HEALTH_THRESHOLDS (spec_checks nodes s) no_metrics).
Proof.
  intros Hok. unfold count_metrics, spec_checks.
  by rewrite check_nodes_encode, bind_Ok, check_system_encode, tally_checks_app.
Qed.

(** With four different emojis, the counting rule counts bands. *)
Lemma tally_emoji_of (l : level) (st : counters) :
  emojis_distinct EMOJIS →
  tally EMOJIS (emoji_of EMOJIS l) st =
    {| critical_count := critical_count st + (if decide (l = Critical) then 1 else 0);
       moderate_count := moderate_count st + (if decide (l = Moderate) then 1 else 0);
       total_metrics := total_metrics st + 1 |}.
Proof.
  unfold emojis_distinct. rewrite !NoDup_cons.
  intros (Hg & Hm & Hc & _). unfold tally.
  destruct l; simpl; repeat case_bool_decide; try set_solver;
    f_equal; lia.
Qed.

Lemma tally_checks_counts (checks : list (Qc * string)) (st : counters) :
  emojis_distinct EMOJIS →
  tally_checks EMOJIS HEALTH_THRESHOLDS checks st =
    {| critical_count :=
         critical_count st + count_level HEALTH_THRESHOLDS Critical checks;
       moderate_count :=
         moderate_count st + count_level HEALTH_THRESHOLDS Moderate checks;
       total_metrics := total_metrics st + length checks |}.
Proof.
  intros Hd. revert st. unfold count_level.
  induction checks as [|c checks IH]; intros st.
  - destruct st; simpl. f_equal; lia.
  - rewrite tally_checks_cons, IH, tally_emoji_of by done. rewrite !filter_cons. simpl.
    repeat case_decide; simpl; f_equal; lia.
Qed.

End Aggregator.

Lemma spec_node_checks_length (n : node_record) :
  length (spec_node_checks n) = if nr_online n then 3 else 0.
Proof. unfold spec_node_checks. by destruct (nr_online n). Qed.


(** ** The aggregator on arbitrary dicts *)

Lemma py_get_exn (d : value) (key : string) (dflt : value) (e : exn) :
  py_get d key dflt = Raise e → e = AttributeError.
Proof. destruct d; simpl; congruence. Qed.

Lemma py_getitem_exn (d : value) (key : string) (e : exn) :
  py_getitem d key = Raise e → e = KeyError ∨ e = TypeError.
Proof.
  destruct d as [| | |m]; simpl; try (intros [= <-]; by right).
  destruct (m !! key); [done|]. intros [= <-]; by left.
Qed.

Lemma py_mul_exn (a b : value) (e : exn) : py_mul a b = Raise e → e = TypeError.
Proof.
  unfold py_mul. destruct (as_number a), (as_number b); congruence.
Qed.

Lemma py_lt_exn (a : value) (t : Qc) (e : exn) : py_lt a t = Raise e → e = TypeError.
Proof. unfold py_lt. destruct (as_number a); congruence. Qed.

Lemma py_truediv_exn (a b : value) (e : exn) :
  py_truediv a b = Raise e →
  e = TypeError ∨ (e = ZeroDivisionError ∧ as_number b = Some (Q2Qc 0)).
Proof.
  unfold py_truediv, float_truediv.
  destruct (as_number a) as [x|], (as_number b) as [y|];
    try (intros [= <-]; by left).
  case_bool_decide as Hy; simpl; [|done].
  intros [= <-]. right. by rewrite Hy.
Qed.

Section AggregatorDynamic.

Variable EMOJIS : emoji_table.
Variable HEALTH_THRESHOLDS : gmap string (gmap string Qc).

Lemma get_health_emoji_exn (v : value) (metric_type : string) (e : exn) :
  get_health_emoji EMOJIS HEALTH_THRESHOLDS v metric_type = Raise e → e = TypeError.
Proof.
  unfold get_health_emoji. destruct v as [|b|q|d]; [done| | |].
  all: intros H; apply bind_Raise_inv in H as [H|(b1 & _ & H)];
    [by apply py_lt_exn in H|];
    destruct b1; [done|];
    apply bind_Raise_inv in H as [H|(b2 & _ & H)];
    [by apply py_lt_exn in H|]; by destruct b2.
Qed.

Lemma tally_total (emoji : string) (st : counters) :
  total_metrics (tally EMOJIS emoji st) = S (total_metrics st).
Proof. unfold tally. by repeat case_bool_decide. Qed.

(** A node whose [online] entry is missing or falsy is skipped before any
    other entry is read. *)
Lemma check_node_offline (d : gmap string value) (st : counters) :
  node_online (VDict d) = false →
  check_node EMOJIS HEALTH_THRESHOLDS (VDict d) st = Ok st.
Proof.
  unfold node_online, check_node. simpl py_get. intros Hoff.
  by rewrite bind_Ok, Hoff.
Qed.

(** One step of a sequence that ends in [ZeroDivisionError]: either the
    step returns, or the lemma about it rules the exception out. *)
Ltac zde_step H lem :=
  lazymatch type of H with
  | (?r ≫= _) = Raise ZeroDivisionError =>
    let E := fresh "E" in
    destruct r eqn:E;
    [ rewrite bind_Ok in H
    | rewrite bind_Raise in H; injection H as ->; apply lem in E;
      try (exfalso; by (done || destruct E)) ]
  end.

Lemma check_node_ZeroDivisionError (node : value) (st : counters) :
  check_node EMOJIS HEALTH_THRESHOLDS node st = Raise ZeroDivisionError →
  zero_allocated node.
Proof.
  unfold check_node, zero_allocated, node_online, ram_denominator. intros H.
  zde_step H py_get_exn. destruct (truthy a) eqn:Htruthy; [|done].
  split; [done|].
  zde_step H py_getitem_exn.
  zde_step H py_getitem_exn. zde_step H py_mul_exn.
  zde_step H get_health_emoji_exn.
  zde_step H py_getitem_exn. zde_step H py_getitem_exn.
  rewrite bind_Ok in H. zde_step H py_getitem_exn.
  zde_step H py_truediv_exn.
  - zde_step H py_mul_exn. zde_step H get_health_emoji_exn.
    zde_step H py_get_exn. zde_step H get_health_emoji_exn. done.
  - match goal with Hexn : _ ∨ _ |- _ => destruct Hexn as [|[_ Hzero]] end;
      [done|].
    match goal with
    | Hm : py_getitem _ "memory" = _, Ha : py_getitem _ "allocated" = _ |- _ =>
      rewrite bind_Ok, Hm, bind_Ok, Ha
    end.
    eauto.
Qed.

Lemma check_nodes_ZeroDivisionError (lavalink_data : list value) (st : counters) :
  check_nodes EMOJIS HEALTH_THRESHOLDS lavalink_data st = Raise ZeroDivisionError →
  Exists zero_allocated lavalink_data.
Proof.
  revert st. induction lavalink_data as [|node rest IH]; intros st; [done|].
  simpl. intros H. apply bind_Raise_inv in H as [H|(st' & _ & H)].
  - left. by eapply check_node_ZeroDivisionError.
  - right. by eapply IH.
Qed.

Lemma check_system_no_ZeroDivisionError (system_data : value) (st : counters) :
  check_system EMOJIS HEALTH_THRESHOLDS system_data st ≠ Raise ZeroDivisionError.
Proof.
  unfold check_system. intros H. destruct (truthy system_data); [|done].
  zde_step H py_getitem_exn. zde_step H get_health_emoji_exn.
  zde_step H py_getitem_exn. zde_step H get_health_emoji_exn.
  zde_step H py_getitem_exn. zde_step H get_health_emoji_exn. done.
Qed.

(** The ratios are computed on a nonzero total only. *)
Lemma of_count_nonzero (n : nat) : n ≠ 0 → of_count n ≠ Q2Qc 0.
Proof.
  intros Hn Heq. apply Q2Qc_eq_iff in Heq.
  unfold Qeq in Heq. simpl in Heq. lia.
Qed.

Lemma determine_overall_health_returns (st : counters) :
  returns (determine_overall_health st).
Proof.
  unfold determine_overall_health, returns.
  case_bool_decide as Ht; [eauto|].
  rewrite !num_truediv_Ok by by apply of_count_nonzero.
  rewrite !bind_Ok. case_bool_decide; [eauto|]. destruct (_ || _); eauto.
Qed.

(** What a call that returns has counted. *)
Lemma check_node_total (node : value) (st st' : counters) :
  check_node EMOJIS HEALTH_THRESHOLDS node st = Ok st' →
  total_metrics st' = total_metrics st + (if node_online node then 3 else 0).
Proof.
  unfold check_node, node_online. intros H.
  apply bind_Ok_inv in H as (online & -> & H).
  destruct (truthy online); [|injection H as <-; lia].
  repeat (apply bind_Ok_inv in H as (? & _ & H)).
  injection H as <-. rewrite !tally_total. lia.
Qed.

Lemma check_nodes_total (lavalink_data : list value) (st st' : counters) :
  check_nodes EMOJIS HEALTH_THRESHOLDS lavalink_data st = Ok st' →
  total_metrics st' = total_metrics st
    + 3 * length (filter (λ node, node_online node = true) lavalink_data).
Proof.
  revert st. induction lavalink_data as [|node rest IH]; intros st; simpl.
  - intros [= <-]. lia.
  - intros H. apply bind_Ok_inv in H as (st1 & H1 & H).
    apply IH in H. apply check_node_total in H1.
    rewrite filter_cons. destruct (node_online node); case_decide; simpl in *;
      try done; lia.
Qed.

Lemma check_system_falsy (system_data : value) (st : counters) :
  truthy system_data = false →
  check_system EMOJIS HEALTH_THRESHOLDS system_data st = Ok st.
Proof. intros Hf. unfold check_system. by rewrite Hf. Qed.

Lemma check_system_total (system_data : value) (st st' : counters) :
  check_system EMOJIS HEALTH_THRESHOLDS system_data st = Ok st' →
  total_metrics st' = total_metrics st + (if truthy system_data then 3 else 0).
Proof.
  unfold check_system. intros H.
  destruct (truthy system_data); [|injection H as <-; lia].
  repeat (apply bind_Ok_inv in H as (? & _ & H)).
  injection H as <-. rewrite !tally_total. lia.
Qed.

End AggregatorDynamic.

(** ** The ratios of the aggregator, on integers *)

Lemma ratio_gt_iff (a : Z) (b : positive) (c t : nat) :
  t ≠ 0 →
  (Q2Qc (a # b) < of_count c / of_count t)%Qc
  ↔ (a * Z.of_nat t < Z.pos b * Z.of_nat c)%Z.
Proof.
  intros Ht. unfold of_count, Qclt, Qcdiv, Qcmult, Qcinv. simpl.
  rewrite !Qred_correct.
  destruct t as [|t]; [done|].
  unfold Qlt, Qinv, Qmult, inject_Z. simpl. lia.
Qed.

Lemma determine_overall_health_ratios (st : counters) :
  total_metrics st ≠ 0 →
  determine_overall_health st =
    let critical_ratio :=
      (of_count (critical_count st) / of_count (total_metrics st))%Qc in
    let moderate_ratio :=
      (of_count (moderate_count st) / of_count (total_metrics st))%Qc in
    if bool_decide (Q2Qc 0.3 < critical_ratio)%Qc then Ok "critical"
    else if bool_decide (Q2Qc 0.1 < critical_ratio)%Qc
            || bool_decide (Q2Qc 0.5 < moderate_ratio)%Qc then Ok "moderate"
    else Ok "good".
Proof.
  intros Ht. unfold determine_overall_health.
  rewrite bool_decide_eq_false_2 by done.
  by rewrite !num_truediv_Ok, !bind_Ok by by apply of_count_nonzero.
Qed.

(** The decision on the counters themselves: more than 3 in 10 critical;
    else more than 1 in 10 critical or more than half moderate. *)
Lemma determine_overall_health_integers (st : counters) :
  total_metrics st ≠ 0 →
  determine_overall_health st =
    Ok (if bool_decide (3 * total_metrics st < 10 * critical_count st)
        then "critical"
        else if bool_decide (total_metrics st < 10 * critical_count st)
                || bool_decide (total_metrics st < 2 * moderate_count st)
        then "moderate"
        else "good").
Proof.
  intros Ht. rewrite determine_overall_health_ratios by done. cbv zeta.
  pose proof (ratio_gt_iff 3 10 (critical_count st) _ Ht) as H3.
  pose proof (ratio_gt_iff 1 10 (critical_count st) _ Ht) as H1.
  pose proof (ratio_gt_iff 5 10 (moderate_count st) _ Ht) as H5.
  rewrite (bool_decide_ext _ _ H3), (bool_decide_ext _ _ H1),
    (bool_decide_ext _ _ H5).
  repeat case_bool_decide; simpl; try reflexivity; exfalso; lia.
Qed.

(** The scenarios of the specification with 10 metrics. *)
Example ten_metrics_four_critical :
  determine_overall_health
    {| critical_count := 4; moderate_count := 0; total_metrics := 10 |}
  = Ok "critical".
Proof. by rewrite determine_overall_health_integers. Qed.

Example ten_metrics_six_moderate :
  determine_overall_health
    {| critical_count := 0; moderate_count := 6; total_metrics := 10 |}
  = Ok "moderate".
Proof. by rewrite determine_overall_health_integers. Qed.

Example ten_metrics_all_good :
  determine_overall_health
    {| critical_count := 0; moderate_count := 0; total_metrics := 10 |}
  = Ok "good".
Proof. by rewrite determine_overall_health_integers. Qed.

(** At the boundaries the comparisons are strict. *)
Example three_in_ten_critical_is_moderate :
  determine_overall_health
    {| critical_count := 3; moderate_count := 0; total_metrics := 10 |}
  = Ok "moderate".
Proof. by rewrite determine_overall_health_integers. Qed.

Example half_moderate_is_good :
  determine_overall_health
    {| critical_count := 1; moderate_count := 5; total_metrics := 10 |}
  = Ok "good".
Proof. by rewrite determine_overall_health_integers. Qed.

(** ** The claims about [get_overall_health] *)

(** C1.  With no metric counted the verdict is "critical", as it is for an
    empty node list and no system record.  Otherwise the two ratios
    decide, the first rule that matches winning: a critical ratio above
    0.3 gives "critical"; failing that, a critical ratio above 0.1 or a
    moderate ratio above 0.5 gives "moderate"; failing both, "good". *)
Theorem overall_health_rule
    (EMOJIS : emoji_table) (HEALTH_THRESHOLDS : gmap string (gmap string Qc)) :
  get_overall_health EMOJIS HEALTH_THRESHOLDS [] VNone = Ok "critical" ∧
  ∀ (lavalink_data : list value) (system_data : value) (st : counters),
    count_metrics EMOJIS HEALTH_THRESHOLDS lavalink_data system_data = Ok st →
    let verdict :=
      get_overall_health EMOJIS HEALTH_THRESHOLDS lavalink_data system_data in
    let critical_ratio :=
      (of_count (critical_count st) / of_count (total_metrics st))%Qc in
    let moderate_ratio :=
      (of_count (moderate_count st) / of_count (total_metrics st))%Qc in
    (total_metrics st = 0 → verdict = Ok "critical") ∧
    (total_metrics st ≠ 0 →
       (Q2Qc 0.3 < critical_ratio)%Qc → verdict = Ok "critical") ∧
    (total_metrics st ≠ 0 →
       ¬ (Q2Qc 0.3 < critical_ratio)%Qc →
       (Q2Qc 0.1 < critical_ratio)%Qc ∨ (Q2Qc 0.5 < moderate_ratio)%Qc →
       verdict = Ok "moderate") ∧
    (total_metrics st ≠ 0 →
       ¬ (Q2Qc 0.3 < critical_ratio)%Qc →
       ¬ (Q2Qc 0.1 < critical_ratio)%Qc →
       ¬ (Q2Qc 0.5 < moderate_ratio)%Qc →
       verdict = Ok "good").
Proof.
  split; [reflexivity|].
  intros lavalink_data system_data st Hst verdict critical_ratio moderate_ratio.
  subst verdict critical_ratio moderate_ratio.
  unfold get_overall_health. rewrite Hst, bind_Ok.
  split; [intros Ht; unfold determine_overall_health;
          by rewrite bool_decide_eq_true_2|].
  repeat split; intros Ht; rewrite (determine_overall_health_ratios _ Ht);
    cbv zeta.
  - intros Hc. by rewrite bool_decide_eq_true_2.
  - intros Hnc [Hc|Hm]; rewrite (bool_decide_eq_false_2 _ Hnc).
    + by rewrite (bool_decide_eq_true_2 _ Hc).
    + rewrite (bool_decide_eq_true_2 _ Hm). by rewrite orb_true_r.
  - intros Hnc Hnc' Hnm. by rewrite !bool_decide_eq_false_2.
Qed.

Lemma overall_health_rule_witness :
  get_overall_health sample_EMOJIS sample_THRESHOLDS
    (encode_node <$> [node_busy; node_down; node_idle]) VNone = Ok "critical" ∧
  get_overall_health sample_EMOJIS sample_THRESHOLDS
    [encode_node node_idle] (encode_system (Some system_loaded)) = Ok "moderate" ∧
  get_overall_health sample_EMOJIS sample_THRESHOLDS
    [encode_node node_idle; encode_node node_idle] VNone = Ok "good" ∧
  get_overall_health sample_EMOJIS sample_THRESHOLDS
    [encode_node node_down] VNone = Ok "critical".
Proof.
  pose proof (overall_health_rule sample_EMOJIS sample_THRESHOLDS) as [_ Hrule].
  split; [|split; [|split]].
  - assert (count_metrics sample_EMOJIS sample_THRESHOLDS
              (encode_node <$> [node_busy; node_down; node_idle]) VNone
            = Ok {| critical_count := 2; moderate_count := 1; total_metrics := 6 |})
      as Hcount by (vm_compute; reflexivity).
    destruct (Hrule _ _ _ Hcount) as (_ & Hcritical & _).
    apply Hcritical; [done | by vm_compute].
  - assert (count_metrics sample_EMOJIS sample_THRESHOLDS
              [encode_node node_idle] (encode_system (Some system_loaded))
            = Ok {| critical_count := 1; moderate_count := 1; total_metrics := 6 |})
      as Hcount by (vm_compute; reflexivity).
    destruct (Hrule _ _ _ Hcount) as (_ & _ & Hmoderate & _).
    apply Hmoderate; [done | by vm_compute | left; by vm_compute].
  - assert (count_metrics sample_EMOJIS sample_THRESHOLDS
              [encode_node node_idle; encode_node node_idle] VNone
            = Ok {| critical_count := 0; moderate_count := 0; total_metrics := 6 |})
      as Hcount by (vm_compute; reflexivity).
    destruct (Hrule _ _ _ Hcount) as (_ & _ & _ & Hgood).
    apply Hgood; [done | by vm_compute | by vm_compute | by vm_compute].
  - assert (count_metrics sample_EMOJIS sample_THRESHOLDS
              [encode_node node_down] VNone = Ok no_metrics)
      as Hcount by (vm_compute; reflexivity).
    destruct (Hrule _ _ _ Hcount) as (Hnone & _).
    by apply Hnone.
Defined.





Lemma sample_EMOJIS_distinct : emojis_distinct sample_EMOJIS.
Proof.
  unfold emojis_distinct. apply (bool_decide_unpack _). by vm_compute.
Defined.


Lemma zero_allocated_encode (n : node_record) :
  zero_allocated (encode_node n)
  ↔ nr_online n = true ∧ nr_allocated n = Q2Qc 0.
Proof.
  unfold zero_allocated, node_online, ram_denominator.
  rewrite encode_node_online, encode_node_stats, bind_Ok.
  rewrite encode_stats_memory, bind_Ok, encode_memory_allocated. simpl truthy.
  split.
  - intros (Hon & a & [= <-] & [= Ha]). done.
  - intros [Hon Ha]. split; [done|]. eexists; split; [done|]. simpl. by rewrite Ha.
Qed.

(** C4.  The RAM ratio is not guarded: whenever some online node of the
    input has [stats.memory.allocated] equal to 0 the call ends in
    [ZeroDivisionError], and such inputs exist; when no online node has a
    zero [stats.memory.allocated], the call never ends in
    [ZeroDivisionError]. *)
Theorem ram_ratio_unguarded
    (EMOJIS : emoji_table) (HEALTH_THRESHOLDS : gmap string (gmap string Qc)) :
  (∀ (nodes : list node_record) (system : option system_record),
     Exists (λ n, nr_online n = true ∧ nr_allocated n = Q2Qc 0) nodes →
     get_overall_health EMOJIS HEALTH_THRESHOLDS
       (encode_node <$> nodes) (encode_system system) = Raise ZeroDivisionError) ∧
  (∃ (lavalink_data : list value) (system_data : value),
     Exists zero_allocated lavalink_data ∧
     get_overall_health EMOJIS HEALTH_THRESHOLDS lavalink_data system_data
       = Raise ZeroDivisionError) ∧
  (∀ (lavalink_data : list value) (system_data : value),
     Forall (λ node, ¬ zero_allocated node) lavalink_data →
     get_overall_health EMOJIS HEALTH_THRESHOLDS lavalink_data system_data
       ≠ Raise ZeroDivisionError).
Proof.
  assert (∀ nodes system,
    Exists (λ n, nr_online n = true ∧ nr_allocated n = Q2Qc 0) nodes →
    get_overall_health EMOJIS HEALTH_THRESHOLDS
      (encode_node <$> nodes) (encode_system system) = Raise ZeroDivisionError)
    as Hraise.
  { intros nodes system Hex. unfold get_overall_health, count_metrics.
    by rewrite check_nodes_encode_zero. }
  split; [exact Hraise|]. split.
  - exists (encode_node <$> [node_idle; node_no_memory]), VNone. split.
    + apply Exists_cons_tl, Exists_cons_hd. by apply zero_allocated_encode.
    + apply (Hraise _ None). by apply Exists_cons_tl, Exists_cons_hd.
  - intros lavalink_data system_data Hall Hzde.
    unfold get_overall_health in Hzde.
    apply bind_Raise_inv in Hzde as [Hzde|(st & _ & Hzde)].
    + unfold count_metrics in Hzde.
      apply bind_Raise_inv in Hzde as [Hzde|(st & _ & Hzde)].
      * apply check_nodes_ZeroDivisionError in Hzde.
        apply Exists_exists in Hzde as (node & Hin & Hzero).
        rewrite Forall_forall in Hall. by apply (Hall node).
      * by apply check_system_no_ZeroDivisionError in Hzde.
    + destruct (determine_overall_health_returns st) as [label Hlabel].
      congruence.
Qed.

Lemma ram_ratio_unguarded_witness :
  get_overall_health sample_EMOJIS sample_THRESHOLDS
    (encode_node <$> [node_idle; node_no_memory; node_busy])
    (encode_system (Some system_loaded)) = Raise ZeroDivisionError ∧
  get_overall_health sample_EMOJIS sample_THRESHOLDS
    (encode_node <$> [node_idle; node_down; node_busy])
    (encode_system (Some system_loaded)) ≠ Raise ZeroDivisionError.
Proof.
  destruct (ram_ratio_unguarded sample_EMOJIS sample_THRESHOLDS)
    as (Hraise & _ & Hsafe).
  split.
  - apply Hraise. by apply Exists_cons_tl, Exists_cons_hd.
  - apply Hsafe.
    change (Forall (λ node, ¬ zero_allocated node)
              [encode_node node_idle; encode_node node_down; encode_node node_busy]).
    repeat apply Forall_cons_2; try apply Forall_nil_2;
      rewrite zero_allocated_encode; intros [Hon Hzero]; discriminate.
Defined.

(** C9.  A falsy system record, the empty dict among them, is treated
    like a missing one: the three system checks are skipped without
    reading the record.  With an empty node list and an empty system
    record nothing is counted and the verdict is "critical". *)
Theorem falsy_system_record
    (EMOJIS : emoji_table) (HEALTH_THRESHOLDS : gmap string (gmap string Qc)) :
  truthy (VDict ∅) = false ∧
  (∀ (system_data : value) (st : counters),
     truthy system_data = false →
     check_system EMOJIS HEALTH_THRESHOLDS system_data st = Ok st) ∧
  (∀ (system_data : value) (st st' : counters),
     check_system EMOJIS HEALTH_THRESHOLDS system_data st = Ok st' →
     total_metrics st' = total_metrics st + (if truthy system_data then 3 else 0)) ∧
  (∀ (lavalink_data : list value) (system_data : value),
     truthy system_data = false →
     count_metrics EMOJIS HEALTH_THRESHOLDS lavalink_data system_data
       = count_metrics EMOJIS HEALTH_THRESHOLDS lavalink_data VNone ∧
     get_overall_health EMOJIS HEALTH_THRESHOLDS lavalink_data system_data
       = get_overall_health EMOJIS HEALTH_THRESHOLDS lavalink_data VNone) ∧
  count_metrics EMOJIS HEALTH_THRESHOLDS [] (VDict ∅) = Ok no_metrics ∧
  get_overall_health EMOJIS HEALTH_THRESHOLDS [] (VDict ∅) = Ok "critical".
Proof.
  split; [reflexivity|]. split; [apply check_system_falsy|].
  split; [apply check_system_total|].
  split; [|split; reflexivity].
  intros lavalink_data system_data Hfalsy.
  assert (count_metrics EMOJIS HEALTH_THRESHOLDS lavalink_data system_data
          = count_metrics EMOJIS HEALTH_THRESHOLDS lavalink_data VNone) as Heq.
  { unfold count_metrics.
    destruct (check_nodes _ _ _ _) as [st|e]; [|reflexivity].
    rewrite !bind_Ok. by rewrite !check_system_falsy. }
  split; [exact Heq|]. unfold get_overall_health. by rewrite Heq.
Qed.

Lemma falsy_system_record_witness :
  get_overall_health sample_EMOJIS sample_THRESHOLDS
    (encode_node <$> [node_idle; node_busy]) (VDict ∅)
  = get_overall_health sample_EMOJIS sample_THRESHOLDS
      (encode_node <$> [node_idle; node_busy]) VNone.
Proof.
  destruct (falsy_system_record sample_EMOJIS sample_THRESHOLDS)
    as (_ & _ & _ & Hsame & _).
  by apply Hsame.
Defined.

(** ** [get_load_indicator] *)

(** C7.  A zero [cpu_count] gives the offline emoji, so the division is
    only reached with a nonzero divisor, where it returns the quotient and
    does not raise; and with a nonzero [cpu_count] a load percentage
    [load_avg / cpu_count * 100] below 70 gives the good emoji.  The load
    percentage is the one the interpreter computes, quotient and product
    each rounded to binary64.  The branches the source at hand does not
    show are the parameter [rest]. *)
Theorem load_indicator_guard
    (EMOJIS : emoji_table) (rest : Qc → result string) :
  (∀ load_avg : Qc,
     get_load_indicator EMOJIS rest load_avg (Q2Qc 0) = Ok (emoji_offline EMOJIS)) ∧
  (∀ load_avg cpu_count : Qc,
     cpu_count ≠ Q2Qc 0 →
     let load_percentage :=
       float_mul (float_div load_avg cpu_count) (Q2Qc 100) in
     float_truediv load_avg cpu_count = Ok (float_div load_avg cpu_count) ∧
     ((load_percentage < Q2Qc 70)%Qc →
      get_load_indicator EMOJIS rest load_avg cpu_count = Ok (emoji_good EMOJIS)) ∧
     (¬ (load_percentage < Q2Qc 70)%Qc →
      get_load_indicator EMOJIS rest load_avg cpu_count = rest load_percentage)) ∧
  (∀ load_avg cpu_count : Qc,
     (∀ p, rest p ≠ Raise ZeroDivisionError) →
     get_load_indicator EMOJIS rest load_avg cpu_count ≠ Raise ZeroDivisionError).
Proof.
  split; [|split].
  - intros load_avg. unfold get_load_indicator.
    by rewrite bool_decide_eq_true_2.
  - intros load_avg cpu_count Hcpu load_percentage. subst load_percentage.
    unfold get_load_indicator.
    rewrite bool_decide_eq_false_2, float_truediv_Ok, bind_Ok by done.
    split; [reflexivity|]. split; intros Hload.
    + by rewrite bool_decide_eq_true_2.
    + by rewrite bool_decide_eq_false_2.
  - intros load_avg cpu_count Hrest. unfold get_load_indicator.
    case_bool_decide as Hcpu; [done|].
    rewrite float_truediv_Ok, bind_Ok by done.
    case_bool_decide; [done|apply Hrest].
Qed.

Lemma load_indicator_guard_witness :
  get_load_indicator sample_EMOJIS (λ _, Ok "(red)") (float_lit 1.5) (Q2Qc 4)
    = Ok "(green)" ∧
  get_load_indicator sample_EMOJIS (λ _, Ok "(red)") (float_lit 2.8) (Q2Qc 4)
    = Ok "(red)" ∧
  get_load_indicator sample_EMOJIS (λ _, Ok "(red)") (float_lit 1.5) (Q2Qc 0)
    ≠ Raise ZeroDivisionError.
Proof.
  destruct (load_indicator_guard sample_EMOJIS (λ _, Ok "(red)"))
    as (_ & Hrun & Hsafe).
  split; [|split].
  - destruct (Hrun (float_lit 1.5) (Q2Qc 4)) as (_ & Hgood & _);
      [by vm_compute|].
    apply Hgood. by vm_compute.
  - destruct (Hrun (float_lit 2.8) (Q2Qc 4)) as (_ & _ & Hrest);
      [by vm_compute|].
    rewrite Hrest; [reflexivity|]. by vm_compute.
  - apply Hsafe. intros p. discriminate.
Defined.

(** ** [calculate_percentage] *)



(** ** [truncate_string] *)

Lemma str_length_app (s1 s2 : string) :
  String.length (s1 +:+ s2) = String.length s1 + String.length s2.
Proof. induction s1 as [|c s1 IH]; simpl; [done|]. by rewrite IH. Qed.

Lemma str_take_length (n : nat) (s : string) :
  String.length (str_take n s) = n `min` String.length s.
Proof.
  revert s. induction n as [|n IH]; intros [|c s]; simpl; try done.
  by rewrite IH.
Qed.

Lemma py_slice_to_prefix (text : string) (stop : Z) :
  (0 ≤ stop ≤ Z.of_nat (String.length text))%Z →
  py_slice_to text stop = str_take (Z.to_nat stop) text ∧
  String.length (py_slice_to text stop) = Z.to_nat stop.
Proof.
  intros Hstop. unfold py_slice_to.
  rewrite (proj2 (Z.ltb_ge stop 0)) by lia.
  rewrite Z.min_l by lia. split; [done|].
  rewrite str_take_length. lia.
Qed.

Lemma truncate_string_short (text : string) (max_length : Z) :
  (Z.of_nat (String.length text) ≤ max_length)%Z →
  truncate_string text max_length = text.
Proof. intros Hle. unfold truncate_string. by rewrite (proj2 (Z.leb_le _ _)). Qed.

Lemma truncate_string_cut (text : string) (max_length : Z) :
  (max_length < Z.of_nat (String.length text))%Z →
  truncate_string text max_length = py_slice_to text (max_length - 3) +:+ "...".
Proof. intros Hgt. unfold truncate_string. by rewrite (proj2 (Z.leb_gt _ _)). Qed.

Lemma truncate_string_cut_length (text : string) (max_length : Z) :
  (max_length < Z.of_nat (String.length text))%Z → (3 ≤ max_length)%Z →
  Z.of_nat (String.length (truncate_string text max_length)) = max_length.
Proof.
  intros Hgt Hmin. rewrite truncate_string_cut by done.
  destruct (py_slice_to_prefix text (max_length - 3)) as [_ Hlen]; [lia|].
  rewrite str_length_app, Hlen. simpl. lia.
Qed.

(** C6.  A text no longer than [max_length] is returned unchanged.  A longer
    one is cut to [text[:max_length - 3]] followed by "...": for
    [max_length >= 3] these are the first [max_length - 3] characters, and
    the result is exactly [max_length] long. *)
Theorem truncate_string_spec (text : string) (max_length : Z) :
  let len := Z.of_nat (String.length text) in
  ((len ≤ max_length)%Z → truncate_string text max_length = text) ∧
  ((max_length < len)%Z →
     truncate_string text max_length
       = py_slice_to text (max_length - 3) +:+ "...") ∧
  ((max_length < len)%Z → (3 ≤ max_length)%Z →
     py_slice_to text (max_length - 3)
       = str_take (Z.to_nat (max_length - 3)) text ∧
     String.length (py_slice_to text (max_length - 3))
       = Z.to_nat (max_length - 3) ∧
     Z.of_nat (String.length (truncate_string text max_length)) = max_length) ∧
  truncate_string "hello" 100 = "hello" ∧
  truncate_string "xxxxxxxxxx" 5 = "xx...".
Proof.
  intros len.
  split; [apply truncate_string_short|].
  split; [apply truncate_string_cut|].
  split; [|split; reflexivity].
  intros Hgt Hmin.
  destruct (py_slice_to_prefix text (max_length - 3)) as [Hprefix Hlen];
    [subst len; lia|].
  split; [done|]. split; [done|]. by apply truncate_string_cut_length.
Qed.

Lemma truncate_string_spec_witness :
  truncate_string "status" 6 = "status" ∧
  truncate_string "lavalink node" 8 = "laval..." ∧
  Z.of_nat (String.length (truncate_string "lavalink node" 8)) = 8%Z.
Proof.
  destruct (truncate_string_spec "status" 6) as (Hsame & _).
  destruct (truncate_string_spec "lavalink node" 8) as (_ & Hcut & Hlen & _).
  split; [|split].
  - apply Hsame. simpl. lia.
  - rewrite Hcut by (simpl; lia). reflexivity.
  - apply Hlen; simpl; lia.
Defined.

(** C10.  For a limit of at least 3, truncating twice is truncating
    once: the first result is no longer than the limit. *)
Theorem truncate_string_idempotent (text : string) (max_length : Z) :
  (3 ≤ max_length)%Z →
  (Z.of_nat (String.length (truncate_string text max_length)) ≤ max_length)%Z ∧
  truncate_string (truncate_string text max_length) max_length
    = truncate_string text max_length.
Proof.
  intros Hmin.
  assert (Z.of_nat (String.length (truncate_string text max_length))
          ≤ max_length)%Z as Hshort.
  { destruct (Z.le_gt_cases (Z.of_nat (String.length text)) max_length)
      as [Hle|Hgt].
    - by rewrite truncate_string_short.
    - rewrite truncate_string_cut_length; [done | lia | done]. }
  split; [exact Hshort|]. by apply truncate_string_short.
Qed.

Lemma truncate_string_idempotent_witness :
  truncate_string (truncate_string "lavalink node" 8) 8
    = truncate_string "lavalink node" 8.
Proof.
  apply (truncate_string_idempotent "lavalink node" 8). lia.
Defined.

Example truncate_string_short_limit : truncate_string "hello" 2 = "hell...".
Proof. reflexivity. Qed.

(** ** [format_bytes] *)

Lemma str_app_assoc (s1 s2 s3 : string) :
  (s1 +:+ s2) +:+ s3 = s1 +:+ s2 +:+ s3.
Proof.
  induction s1 as [|c s1 IH]; [done|]. exact (f_equal (String c) IH).
Qed.

Lemma string_of_uint_digits (d : Decimal.uint) :
  all_digits (NilEmpty.string_of_uint d) = true.
Proof. induction d; simpl; done. Qed.

Lemma string_of_uint_nz_digits (d : Decimal.uint) :
  all_digits (NilZero.string_of_uint d) = true.
Proof. pose proof (string_of_uint_digits d). by destruct d. Qed.

(** The numeral of a non-negative integer consists of digits only. *)
Lemma str_of_int_digits (n : Z) : (0 ≤ n)%Z → all_digits (str_of_int n) = true.
Proof.
  intros Hn. unfold str_of_int. destruct n as [|p|p]; [done| |lia].
  apply string_of_uint_nz_digits.
Qed.

Lemma str_of_int_digit (n : Z) :
  (0 ≤ n ≤ 9)%Z → String.length (str_of_int n) = 1.
Proof.
  intros Hn.
  assert (n = 0 ∨ n = 1 ∨ n = 2 ∨ n = 3 ∨ n = 4 ∨ n = 5 ∨ n = 6 ∨ n = 7
          ∨ n = 8 ∨ n = 9)%Z as Hcases by lia.
  repeat destruct Hcases as [->|Hcases]; try reflexivity. by subst.
Qed.

(** Rounding moves a number by at most one half. *)
Lemma round_half_even_bounds (q : Q) :
  (q - (1#2) <= inject_Z (round_half_even q))%Q ∧
  (inject_Z (round_half_even q) <= q + (1#2))%Q.
Proof.
  destruct q as [a b].
  unfold round_half_even, Qle, Qminus, Qplus, Qopp, inject_Z. simpl.
  pose proof (Z.div_mod a (Z.pos b) ltac:(lia)) as Hdm.
  pose proof (Z.mod_pos_bound a (Z.pos b) ltac:(lia)) as Hmod.
  set (f := (a / Z.pos b)%Z) in *. set (r := (a mod Z.pos b)%Z) in *.
  repeat case_match; rewrite ?Z.ltb_lt, ?Z.ltb_ge in *; split; nia.
Qed.

Lemma of_int_div (n d : Z) :
  (0 < d)%Z → ((of_int n / of_int d)%Qc : Q) == (n # Z.to_pos d).
Proof.
  intros Hd. unfold of_int, Qcdiv, Qcmult, Qcinv. simpl.
  rewrite !Qred_correct. destruct d as [|p|p]; try lia.
  unfold Qeq, Qinv, Qmult, inject_Z; simpl. lia.
Qed.

Lemma format_1f_quotient (n d : Z) :
  (0 ≤ n)%Z → (0 < d)%Z →
  ∃ whole digit : Z,
    (0 ≤ whole)%Z ∧ (0 ≤ digit ≤ 9)%Z ∧
    format_1f (of_int n / of_int d)%Qc
      = str_of_int whole +:+ "." +:+ str_of_int digit ∧
    (2 * Z.abs (d * (10 * whole + digit) - 10 * n) ≤ d)%Z.
Proof.
  intros Hn Hd. unfold format_1f.
  set (x := (of_int n / of_int d)%Qc).
  pose proof (of_int_div n d Hd) as Hx. fold x in Hx.
  assert (0 <= x)%Q as Hx0.
  { rewrite Hx. unfold Qle; simpl. lia. }
  rewrite bool_decide_eq_false_2.
  2:{ apply Qcle_not_lt. unfold Qcle. simpl. exact Hx0. }
  set (t := round_half_even (Qabs x * 10)).
  destruct (round_half_even_bounds (Qabs x * 10)) as [Hlo Hhi].
  fold t in Hlo, Hhi.
  rewrite Qabs_pos in Hlo, Hhi by exact Hx0.
  rewrite Hx in Hlo, Hhi.
  unfold Qle, Qminus, Qplus, Qopp, Qmult, inject_Z in Hlo, Hhi.
  simpl in Hlo, Hhi.
  rewrite !Pos2Z.inj_mul, Z2Pos.id in Hlo, Hhi by lia.
  assert (0 ≤ t)%Z as Ht by nia.
  pose proof (Z.div_mod t 10 ltac:(lia)) as Hdm.
  pose proof (Z.mod_pos_bound t 10 ltac:(lia)) as Hmod.
  exists (t / 10)%Z, (t mod 10)%Z.
  split; [apply Z.div_pos; lia|]. split; [lia|]. split; [reflexivity|].
  replace (10 * (t / 10) + t mod 10)%Z with t by lia.
  clear Hdm Hmod. nia.
Qed.

Lemma format_1f_one_decimal (n unit : Z) (suffix : string) :
  (0 ≤ n)%Z → (0 < unit)%Z →
  one_decimal n unit suffix (format_1f (of_int n / of_int unit)%Qc +:+ suffix).
Proof.
  intros Hn Hunit.
  destruct (format_1f_quotient n unit Hn Hunit)
    as (whole & digit & Hwhole & Hdigit & -> & Hclose).
  exists whole, digit.
  split; [done|]. split; [done|].
  split; [by rewrite !str_app_assoc|].
  split; [by apply str_of_int_digits|].
  split; [by apply str_of_int_digit|done].
Qed.

(** C5.  For an integer byte count that is not negative, the unit follows
    the thresholds 1024, 1024^2 and 1024^3.  Below 1024 the count itself is
    printed, a numeral without a point, followed by "B"; from there on the
    quotient by 1024, 1024^2 or 1024^3 is printed with exactly one decimal
    digit, followed by "KB", "MB" or "GB".  In particular 512 gives "512B",
    2048 gives "2.0KB" and 1048576 gives "1.0MB". *)
Theorem format_bytes_units (bytes_value : Z) :
  (0 ≤ bytes_value)%Z →
  ((bytes_value < 1024)%Z →
     format_bytes bytes_value = str_of_int bytes_value +:+ "B" ∧
     all_digits (str_of_int bytes_value) = true) ∧
  ((1024 ≤ bytes_value < 1024 ^ 2)%Z →
     one_decimal bytes_value 1024 "KB" (format_bytes bytes_value)) ∧
  ((1024 ^ 2 ≤ bytes_value < 1024 ^ 3)%Z →
     one_decimal bytes_value (1024 ^ 2) "MB" (format_bytes bytes_value)) ∧
  ((1024 ^ 3 ≤ bytes_value)%Z →
     one_decimal bytes_value (1024 ^ 3) "GB" (format_bytes bytes_value)) ∧
  format_bytes 512 = "512B" ∧
  format_bytes 2048 = "2.0KB" ∧
  format_bytes 1048576 = "1.0MB".
Proof.
  intros Hn. unfold format_bytes.
  split; [|split; [|split; [|split; [|by vm_compute]]]].
  - intros Hlt. rewrite (proj2 (Z.ltb_lt _ _)) by done.
    split; [done|by apply str_of_int_digits].
  - intros [Hge Hlt].
    rewrite (proj2 (Z.ltb_ge _ 1024)), (proj2 (Z.ltb_lt _ (1024 ^ 2))) by done.
    by apply format_1f_one_decimal.
  - intros [Hge Hlt].
    rewrite (proj2 (Z.ltb_ge _ 1024)) by lia.
    rewrite (proj2 (Z.ltb_ge _ (1024 ^ 2))), (proj2 (Z.ltb_lt _ (1024 ^ 3)))
      by done.
    by apply format_1f_one_decimal.
  - intros Hge.
    rewrite (proj2 (Z.ltb_ge _ 1024)), (proj2 (Z.ltb_ge _ (1024 ^ 2))) by lia.
    rewrite (proj2 (Z.ltb_ge _ (1024 ^ 3))) by done.
    by apply format_1f_one_decimal.
Qed.

Lemma format_bytes_units_witness :
  format_bytes 1000 = "1000B" ∧
  one_decimal 1536 1024 "KB" (format_bytes 1536) ∧
  one_decimal 5000000000 (1024 ^ 3) "GB" (format_bytes 5000000000).
Proof.
  split; [|split].
  - destruct (format_bytes_units 1000) as (Hbytes & _); [lia|].
    destruct Hbytes as [-> _]; [lia|]. reflexivity.
  - apply (format_bytes_units 1536); lia.
  - apply (format_bytes_units 5000000000); lia.
Defined.

(* ===================================================================== *)
(** * Part III: further properties of the module                          *)
(* ===================================================================== *)

(** ** Counters *)

Lemma counters_plus_no_metrics (st : counters) : counters_plus st no_metrics = st.
Proof. destruct st. unfold counters_plus. simpl. f_equal; lia. Qed.

Lemma counters_plus_assoc (a b c : counters) :
  counters_plus (counters_plus a b) c = counters_plus a (counters_plus b c).
Proof. unfold counters_plus. simpl. f_equal; lia. Qed.

Lemma counters_plus_swap (a b c : counters) :
  counters_plus (counters_plus a b) c = counters_plus (counters_plus a c) b.
Proof. unfold counters_plus. simpl. f_equal; lia. Qed.

Lemma tally_plus (E : emoji_table) (emoji : string) (st d : counters) :
  tally E emoji (counters_plus st d) = counters_plus st (tally E emoji d).
Proof.
  unfold tally, counters_plus. repeat case_bool_decide; simpl; f_equal; lia.
Qed.

(** Splitting a sequence at its first step. *)
Ltac bind_cases :=
  repeat match goal with
         | |- context [mbind _ ?r] => destruct r; simpl; try reflexivity
         end.

Section Shift.

Variable EMOJIS : emoji_table.
Variable HEALTH_THRESHOLDS : gmap string (gmap string Qc).

(** What a node adds to the counters does not depend on the counters. *)
Lemma check_node_shift (node : value) (st : counters) :
  check_node EMOJIS HEALTH_THRESHOLDS node st =
    (d ← check_node EMOJIS HEALTH_THRESHOLDS node no_metrics ;
     Ok (counters_plus st d)).
Proof.
  unfold check_node.
  destruct (py_get node "online" (VBool false)) as [online|e]; simpl; [|done].
  destruct (truthy online); simpl; [|by rewrite counters_plus_no_metrics].
  bind_cases.
  rewrite <- !tally_plus. by rewrite counters_plus_no_metrics.
Qed.

Lemma check_nodes_shift (lavalink_data : list value) (st : counters) :
  check_nodes EMOJIS HEALTH_THRESHOLDS lavalink_data st =
    (d ← check_nodes EMOJIS HEALTH_THRESHOLDS lavalink_data no_metrics ;
     Ok (counters_plus st d)).
Proof.
  revert st. induction lavalink_data as [|node rest IH]; intros st; simpl.
  - by rewrite counters_plus_no_metrics.
  - rewrite (check_node_shift node st).
    destruct (check_node EMOJIS HEALTH_THRESHOLDS node no_metrics) as [d|e];
      simpl; [|done].
    rewrite (IH (counters_plus st d)), (IH d).
    destruct (check_nodes EMOJIS HEALTH_THRESHOLDS rest no_metrics) as [d'|e];
      simpl; [|done].
    by rewrite counters_plus_assoc.
Qed.

Lemma check_nodes_app (l1 l2 : list value) (st : counters) :
  check_nodes EMOJIS HEALTH_THRESHOLDS (l1 ++ l2) st =
    (st' ← check_nodes EMOJIS HEALTH_THRESHOLDS l1 st ;
     check_nodes EMOJIS HEALTH_THRESHOLDS l2 st').
Proof.
  revert st. induction l1 as [|node l1 IH]; intros st; simpl; [done|].
  destruct (check_node EMOJIS HEALTH_THRESHOLDS node st) as [st'|e]; simpl;
    [apply IH|done].
Qed.

(** Reordering the nodes of a call that returns changes nothing. *)
Lemma check_nodes_Permutation (l l' : list value) (st r : counters) :
  Permutation l l' →
  check_nodes EMOJIS HEALTH_THRESHOLDS l st = Ok r →
  check_nodes EMOJIS HEALTH_THRESHOLDS l' st = Ok r.
Proof.
  intros Hperm. revert st r.
  induction Hperm as [|x l l' _ IH|x y l|l l' l'' _ IH1 _ IH2]; intros st r.
  - done.
  - simpl. intros H. apply bind_Ok_inv in H as (st' & -> & H).
    rewrite bind_Ok. by apply IH.
  - simpl. intros H.
    apply bind_Ok_inv in H as (s1 & Hy & H).
    apply bind_Ok_inv in H as (s2 & Hx & H).
    rewrite check_node_shift in Hy. apply bind_Ok_inv in Hy as (dy & Hy & [= <-]).
    rewrite check_node_shift in Hx. apply bind_Ok_inv in Hx as (dx & Hx & [= <-]).
    rewrite (check_node_shift x st), Hx, !bind_Ok.
    rewrite (check_node_shift y), Hy, !bind_Ok.
    by rewrite counters_plus_swap.
  - intros H. by apply IH2, IH1.
Qed.

(** The counters never count more critical and moderate checks than
    checks. *)
Lemma tally_bounded (emoji : string) (st : counters) :
  (critical_count st + moderate_count st ≤ total_metrics st)%nat →
  (critical_count (tally EMOJIS emoji st)
   + moderate_count (tally EMOJIS emoji st)
   ≤ total_metrics (tally EMOJIS emoji st))%nat.
Proof. unfold tally. repeat case_bool_decide; simpl; lia. Qed.

Lemma check_node_bounded (node : value) (st st' : counters) :
  check_node EMOJIS HEALTH_THRESHOLDS node st = Ok st' →
  (critical_count st + moderate_count st ≤ total_metrics st)%nat →
  (critical_count st' + moderate_count st' ≤ total_metrics st')%nat.
Proof.
  unfold check_node. intros H Hst.
  apply bind_Ok_inv in H as (online & _ & H).
  destruct (truthy online); [|by injection H as <-].
  repeat (apply bind_Ok_inv in H as (? & _ & H)).
  injection H as <-. by repeat apply tally_bounded.
Qed.

Lemma check_nodes_bounded (lavalink_data : list value) (st st' : counters) :
  check_nodes EMOJIS HEALTH_THRESHOLDS lavalink_data st = Ok st' →
  (critical_count st + moderate_count st ≤ total_metrics st)%nat →
  (critical_count st' + moderate_count st' ≤ total_metrics st')%nat.
Proof.
  revert st. induction lavalink_data as [|node rest IH]; intros st; simpl.
  - by intros [= <-].
  - intros H Hst. apply bind_Ok_inv in H as (st1 & H1 & H).
    eapply IH; [exact H|]. by eapply check_node_bounded.
Qed.

Lemma check_system_bounded (system_data : value) (st st' : counters) :
  check_system EMOJIS HEALTH_THRESHOLDS system_data st = Ok st' →
  (critical_count st + moderate_count st ≤ total_metrics st)%nat →
  (critical_count st' + moderate_count st' ≤ total_metrics st')%nat.
Proof.
  unfold check_system. intros H Hst.
  destruct (truthy system_data); [|by injection H as <-].
  repeat (apply bind_Ok_inv in H as (? & _ & H)).
  injection H as <-. by repeat apply tally_bounded.
Qed.

Lemma count_metrics_bounded (lavalink_data : list value) (system_data : value)
    (st : counters) :
  count_metrics EMOJIS HEALTH_THRESHOLDS lavalink_data system_data = Ok st →
  (critical_count st + moderate_count st ≤ total_metrics st)%nat.
Proof.
  unfold count_metrics. intros H. apply bind_Ok_inv in H as (st1 & H1 & H).
  eapply check_system_bounded; [exact H|].
  eapply check_nodes_bounded; [exact H1|]. simpl. lia.
Qed.

End Shift.

(** The verdict is one of three labels. *)
Lemma determine_overall_health_labels (st : counters) (verdict : string) :
  determine_overall_health st = Ok verdict →
  verdict = "good" ∨ verdict = "moderate" ∨ verdict = "critical".
Proof.
  unfold determine_overall_health.
  case_bool_decide as Ht; [intros [= <-]; auto|].
  rewrite !num_truediv_Ok, !bind_Ok by by apply of_count_nonzero.
  case_bool_decide; [intros [= <-]; auto|].
  destruct (_ || _); intros [= <-]; auto.
Qed.

(** ** Further properties of [get_health_emoji] *)

(** X1.  [get_health_emoji] returns exactly on [None] and on numbers
    (booleans included), and then one of the four emojis of the table; on
    any other value the comparison raises [TypeError]. *)
Theorem get_health_emoji_domain
    (EMOJIS : emoji_table) (HEALTH_THRESHOLDS : gmap string (gmap string Qc))
    (v : value) (metric_type : string) :
  (classifiable v →
     ∃ l : level,
       get_health_emoji EMOJIS HEALTH_THRESHOLDS v metric_type
         = Ok (emoji_of EMOJIS l)) ∧
  (¬ classifiable v →
     get_health_emoji EMOJIS HEALTH_THRESHOLDS v metric_type = Raise TypeError).
Proof.
  split.
  - intros [->|[x Hx]]; [by exists Offline|].
    destruct v as [|b|q|d]; [by exists Offline| | |];
      eexists; by eapply get_health_emoji_number.
  - intros Hv. destruct v as [|b|q|d].
    + exfalso. apply Hv. by left.
    + exfalso. apply Hv. right. destruct b; by eexists.
    + exfalso. apply Hv. right. by eexists.
    + reflexivity.
Qed.

Lemma get_health_emoji_domain_witness :
  (∃ l, get_health_emoji sample_EMOJIS sample_THRESHOLDS (VBool true) "cpu"
          = Ok (emoji_of sample_EMOJIS l)) ∧
  get_health_emoji sample_EMOJIS sample_THRESHOLDS (VDict ∅) "cpu"
    = Raise TypeError.
Proof.
  split.
  - apply (get_health_emoji_domain sample_EMOJIS sample_THRESHOLDS (VBool true)).
    right. by eexists.
  - apply (get_health_emoji_domain sample_EMOJIS sample_THRESHOLDS (VDict ∅)).
    intros [Hnone|[x Hx]]; discriminate.
Defined.

(** X2.  The classification is monotone: a larger value of the same metric
    type never gets a milder emoji, whatever the thresholds are. *)
Theorem get_health_emoji_monotone
    (EMOJIS : emoji_table) (HEALTH_THRESHOLDS : gmap string (gmap string Qc))
    (metric_type : string) (x y : Qc) :
  (x ≤ y)%Qc →
  ∃ lx ly : level,
    get_health_emoji EMOJIS HEALTH_THRESHOLDS (VNum x) metric_type
      = Ok (emoji_of EMOJIS lx) ∧
    get_health_emoji EMOJIS HEALTH_THRESHOLDS (VNum y) metric_type
      = Ok (emoji_of EMOJIS ly) ∧
    (severity lx ≤ severity ly)%nat ∧
    lx ≠ Offline ∧ ly ≠ Offline.
Proof.
  intros Hxy.
  exists (classify HEALTH_THRESHOLDS (Some x) metric_type),
         (classify HEALTH_THRESHOLDS (Some y) metric_type).
  rewrite !get_health_emoji_VNum. split; [done|]. split; [done|].
  unfold classify.
  assert (∀ t : Qc, (y < t)%Qc → (x < t)%Qc) as Hlt
    by (intros t Ht; by apply (Qcle_lt_trans _ y)).
  repeat case_bool_decide; simpl; repeat split; try done; try lia;
    exfalso; auto.
Qed.

Lemma get_health_emoji_monotone_witness :
  ∃ lx ly : level,
    get_health_emoji sample_EMOJIS sample_THRESHOLDS (VNum (Q2Qc 40)) "disk"
      = Ok (emoji_of sample_EMOJIS lx) ∧
    get_health_emoji sample_EMOJIS sample_THRESHOLDS (VNum (Q2Qc 75)) "disk"
      = Ok (emoji_of sample_EMOJIS ly) ∧
    (severity lx ≤ severity ly)%nat ∧
    lx ≠ Offline ∧ ly ≠ Offline.
Proof.
  apply (get_health_emoji_monotone sample_EMOJIS sample_THRESHOLDS "disk").
  by vm_compute.
Defined.

(** ** Further properties of [get_overall_health] *)

Lemma check_nodes_filter_online
    (EMOJIS : emoji_table) (HEALTH_THRESHOLDS : gmap string (gmap string Qc))
    (lavalink_data : list value) (st : counters) :
  Forall is_dict lavalink_data →
  check_nodes EMOJIS HEALTH_THRESHOLDS
    (filter (λ node, node_online node = true) lavalink_data) st
  = check_nodes EMOJIS HEALTH_THRESHOLDS lavalink_data st.
Proof.
  intros Hdict. revert st.
  induction Hdict as [|node rest Hnode _ IH]; intros st; [done|].
  rewrite filter_cons. case_decide as Hon; simpl.
  - destruct (check_node _ _ node st); simpl; [apply IH|done].
  - destruct node as [| | |d]; try done.
    rewrite check_node_offline by by destruct (node_online (VDict d)).
    rewrite bind_Ok. apply IH.
Qed.

(** X3.  Whenever the counting returns, the critical and the moderate
    checks together are no more than the checks counted, and the number
    of checks is a multiple of three. *)
Theorem counters_invariant
    (EMOJIS : emoji_table) (HEALTH_THRESHOLDS : gmap string (gmap string Qc))
    (lavalink_data : list value) (system_data : value) (st : counters) :
  count_metrics EMOJIS HEALTH_THRESHOLDS lavalink_data system_data = Ok st →
  (critical_count st + moderate_count st ≤ total_metrics st)%nat ∧
  ∃ k : nat, total_metrics st = (3 * k)%nat.
Proof.
  intros Hst. split; [by eapply count_metrics_bounded|].
  unfold count_metrics in Hst. apply bind_Ok_inv in Hst as (st1 & Hnodes & Hsys).
  apply check_nodes_total in Hnodes. apply check_system_total in Hsys.
  simpl in Hnodes.
  exists (length (filter (λ node, node_online node = true) lavalink_data)
          + (if truthy system_data then 1 else 0))%nat.
  destruct (truthy system_data); lia.
Qed.

Lemma counters_invariant_witness :
  (2 + 1 ≤ 6)%nat ∧ ∃ k : nat, 6%nat = (3 * k)%nat.
Proof.
  apply (counters_invariant sample_EMOJIS sample_THRESHOLDS
           (encode_node <$> [node_busy; node_down; node_idle]) VNone
           {| critical_count := 2; moderate_count := 1; total_metrics := 6 |}).
  vm_compute. reflexivity.
Defined.

(** X4.  A call that returns gives "good", "moderate" or "critical" and
    nothing else. *)
Theorem overall_health_labels
    (EMOJIS : emoji_table) (HEALTH_THRESHOLDS : gmap string (gmap string Qc))
    (lavalink_data : list value) (system_data : value) (verdict : string) :
  get_overall_health EMOJIS HEALTH_THRESHOLDS lavalink_data system_data
    = Ok verdict →
  verdict = "good" ∨ verdict = "moderate" ∨ verdict = "critical".
Proof.
  unfold get_overall_health. intros H.
  apply bind_Ok_inv in H as (st & _ & H).
  by eapply determine_overall_health_labels.
Qed.

Lemma overall_health_labels_witness :
  "moderate" = "good" ∨ "moderate" = "moderate" ∨ "moderate" = "critical".
Proof.
  apply (overall_health_labels sample_EMOJIS sample_THRESHOLDS
           [encode_node node_idle] (encode_system (Some system_loaded))).
  vm_compute. reflexivity.
Defined.

(** X5.  On the counters the rule reads: with [t] checks of which [c] are
    critical and [m] moderate, the verdict is "critical" when
    [10 c > 3 t]; else "moderate" when [10 c > t] or [2 m > t]; else
    "good". *)
Theorem overall_health_on_counts
    (EMOJIS : emoji_table) (HEALTH_THRESHOLDS : gmap string (gmap string Qc))
    (lavalink_data : list value) (system_data : value) (st : counters) :
  count_metrics EMOJIS HEALTH_THRESHOLDS lavalink_data system_data = Ok st →
  total_metrics st ≠ 0%nat →
  get_overall_health EMOJIS HEALTH_THRESHOLDS lavalink_data system_data =
    Ok (if bool_decide (3 * total_metrics st < 10 * critical_count st)%nat
        then "critical"
        else if bool_decide (total_metrics st < 10 * critical_count st)%nat
                || bool_decide (total_metrics st < 2 * moderate_count st)%nat
        then "moderate"
        else "good").
Proof.
  intros Hst Ht. unfold get_overall_health. rewrite Hst, bind_Ok.
  by apply determine_overall_health_integers.
Qed.

Lemma overall_health_on_counts_witness :
  get_overall_health sample_EMOJIS sample_THRESHOLDS
    [encode_node node_idle] (encode_system (Some system_loaded)) = Ok "moderate".
Proof.
  rewrite (overall_health_on_counts sample_EMOJIS sample_THRESHOLDS _ _
             {| critical_count := 1; moderate_count := 1; total_metrics := 6 |});
    [reflexivity | vm_compute; reflexivity | done].
Defined.

(** X6.  The order of the nodes does not matter: a call that returns
    returns the same counters and the same verdict on every reordering of
    the node list. *)
Theorem overall_health_Permutation
    (EMOJIS : emoji_table) (HEALTH_THRESHOLDS : gmap string (gmap string Qc))
    (l l' : list value) (system_data : value) :
  Permutation l l' →
  (∀ st, count_metrics EMOJIS HEALTH_THRESHOLDS l system_data = Ok st →
         count_metrics EMOJIS HEALTH_THRESHOLDS l' system_data = Ok st) ∧
  (∀ verdict,
     get_overall_health EMOJIS HEALTH_THRESHOLDS l system_data = Ok verdict →
     get_overall_health EMOJIS HEALTH_THRESHOLDS l' system_data = Ok verdict).
Proof.
  intros Hperm.
  assert (∀ st, count_metrics EMOJIS HEALTH_THRESHOLDS l system_data = Ok st →
                count_metrics EMOJIS HEALTH_THRESHOLDS l' system_data = Ok st)
    as Hcount.
  { intros st. unfold count_metrics. intros H.
    apply bind_Ok_inv in H as (st1 & Hnodes & Hsys).
    by rewrite (check_nodes_Permutation _ _ _ _ _ _ Hperm Hnodes), bind_Ok. }
  split; [exact Hcount|].
  intros verdict. unfold get_overall_health. intros H.
  apply bind_Ok_inv in H as (st & Hst & H).
  by rewrite (Hcount _ Hst), bind_Ok.
Qed.

Lemma overall_health_Permutation_witness :
  get_overall_health sample_EMOJIS sample_THRESHOLDS
    (encode_node <$> [node_idle; node_down; node_busy]) VNone = Ok "critical".
Proof.
  apply (overall_health_Permutation sample_EMOJIS sample_THRESHOLDS
           (encode_node <$> [node_busy; node_down; node_idle])).
  - simpl. etrans; [apply perm_swap|]. etrans; [apply perm_skip, perm_swap|].
    apply perm_swap.
  - vm_compute. reflexivity.
Defined.

(** X7.  Offline nodes are ignored altogether: on a list of dicts, the
    call behaves as on the sublist of the nodes whose [online] entry is
    truthy, exceptions included. *)
Theorem offline_nodes_ignored
    (EMOJIS : emoji_table) (HEALTH_THRESHOLDS : gmap string (gmap string Qc))
    (lavalink_data : list value) (system_data : value) :
  Forall is_dict lavalink_data →
  get_overall_health EMOJIS HEALTH_THRESHOLDS
    (filter (λ node, node_online node = true) lavalink_data) system_data
  = get_overall_health EMOJIS HEALTH_THRESHOLDS lavalink_data system_data.
Proof.
  intros Hdict. unfold get_overall_health, count_metrics.
  by rewrite check_nodes_filter_online.
Qed.

Lemma offline_nodes_ignored_witness :
  get_overall_health sample_EMOJIS sample_THRESHOLDS
    (filter (λ node, node_online node = true)
       [encode_node node_down; VDict ∅; encode_node node_idle]) VNone
  = get_overall_health sample_EMOJIS sample_THRESHOLDS
      [encode_node node_down; VDict ∅; encode_node node_idle] VNone.
Proof.
  apply (offline_nodes_ignored sample_EMOJIS sample_THRESHOLDS).
  repeat apply Forall_cons_2; try apply Forall_nil_2; exact I.
Defined.

Lemma get_health_emoji_classifiable
    (EMOJIS : emoji_table) (HEALTH_THRESHOLDS : gmap string (gmap string Qc))
    (v : value) (metric_type : string) :
  classifiable v →
  ∃ emoji, get_health_emoji EMOJIS HEALTH_THRESHOLDS v metric_type = Ok emoji.
Proof.
  intros [->|[x Hx]]; [by eexists|].
  destruct v as [|b|q|d]; [by eexists| | |];
    eexists; by eapply get_health_emoji_number.
Qed.

Lemma get_health_emoji_VNone
    (EMOJIS : emoji_table) (HEALTH_THRESHOLDS : gmap string (gmap string Qc))
    (metric_type : string) :
  get_health_emoji EMOJIS HEALTH_THRESHOLDS VNone metric_type
    = Ok (emoji_offline EMOJIS).
Proof. reflexivity. Qed.

Lemma tally_offline (EMOJIS : emoji_table) (st : counters) :
  emojis_distinct EMOJIS →
  tally EMOJIS (emoji_offline EMOJIS) st =
    {| critical_count := critical_count st;
       moderate_count := moderate_count st;
       total_metrics := total_metrics st + 1 |}.
Proof.
  intros Hdistinct.
  change (emoji_offline EMOJIS) with (emoji_of EMOJIS Offline).
  rewrite tally_emoji_of by done. simpl. f_equal; lia.
Qed.

(** X8.  [stats] is read for online nodes only: an online node without a
    [stats] entry ends the call in [KeyError] (the nodes before it being
    well-formed), whatever follows it and whatever the system record is,
    while a node that is not online may lack it. *)
Theorem stats_required_when_online
    (EMOJIS : emoji_table) (HEALTH_THRESHOLDS : gmap string (gmap string Qc))
    (nodes : list node_record) (d : gmap string value)
    (rest : list value) (system_data : value) :
  Forall (λ n, nr_online n = true → nr_allocated n ≠ Q2Qc 0) nodes →
  d !! "stats" = None →
  (node_online (VDict d) = true →
     get_overall_health EMOJIS HEALTH_THRESHOLDS
       ((encode_node <$> nodes) ++ VDict d :: rest) system_data
     = Raise KeyError) ∧
  (node_online (VDict d) = false →
     get_overall_health EMOJIS HEALTH_THRESHOLDS
       ((encode_node <$> nodes) ++ VDict d :: rest) system_data
     = get_overall_health EMOJIS HEALTH_THRESHOLDS
         ((encode_node <$> nodes) ++ rest) system_data).
Proof.
  intros Hnodes Hstats.
  unfold get_overall_health, count_metrics.
  rewrite !check_nodes_app, check_nodes_encode, !bind_Ok by done.
  split; intros Hon; simpl check_nodes.
  - unfold check_node. unfold node_online in Hon. simpl in Hon |- *.
    rewrite Hon. simpl. by rewrite Hstats.
  - by rewrite check_node_offline, bind_Ok.
Qed.

Lemma stats_required_when_online_witness :
  get_overall_health sample_EMOJIS sample_THRESHOLDS
    ((encode_node <$> [node_idle])
       ++ VDict (<["online" := VBool true]> ∅) :: [encode_node node_busy])
    VNone
  = Raise KeyError.
Proof.
  apply (stats_required_when_online sample_EMOJIS sample_THRESHOLDS
           [node_idle] (<["online" := VBool true]> ∅)).
  - apply Forall_cons_2; [done|apply Forall_nil_2].
  - reflexivity.
  - reflexivity.
Defined.

(** X9.  A truthy system record must carry all three metrics: when the
    nodes are well-formed and the entries present are [None] or numbers, a
    missing [cpu_percent], [memory_percent] or [disk_percent] ends the
    call in [KeyError]. *)
Theorem system_record_needs_all_fields
    (EMOJIS : emoji_table) (HEALTH_THRESHOLDS : gmap string (gmap string Qc))
    (nodes : list node_record) (d : gmap string value) :
  Forall (λ n, nr_online n = true → nr_allocated n ≠ Q2Qc 0) nodes →
  truthy (VDict d) = true →
  (∀ key v, d !! key = Some v → classifiable v) →
  Exists (λ key, d !! key = None) system_fields →
  get_overall_health EMOJIS HEALTH_THRESHOLDS (encode_node <$> nodes) (VDict d)
    = Raise KeyError.
Proof.
  intros Hnodes Htruthy Hvalues Hmissing.
  unfold get_overall_health, count_metrics.
  rewrite check_nodes_encode, bind_Ok by done.
  unfold check_system. rewrite Htruthy. unfold py_getitem.
  destruct (d !! "cpu_percent") as [v1|] eqn:H1; [|done].
  destruct (get_health_emoji_classifiable EMOJIS HEALTH_THRESHOLDS v1 "cpu")
    as [e1 He1]; [by eapply Hvalues|].
  rewrite bind_Ok, He1, bind_Ok.
  destruct (d !! "memory_percent") as [v2|] eqn:H2; [|done].
  destruct (get_health_emoji_classifiable EMOJIS HEALTH_THRESHOLDS v2 "ram")
    as [e2 He2]; [by eapply Hvalues|].
  rewrite bind_Ok, He2, bind_Ok.
  destruct (d !! "disk_percent") as [v3|] eqn:H3; [|done].
  exfalso. unfold system_fields in Hmissing.
  rewrite !Exists_cons, Exists_nil in Hmissing.
  destruct Hmissing as [?|[?|[?|[]]]]; congruence.
Qed.

Lemma system_record_needs_all_fields_witness :
  get_overall_health sample_EMOJIS sample_THRESHOLDS
    (encode_node <$> [node_idle])
    (VDict (<["cpu_percent" := VNum (Q2Qc 12)]>
           (<["disk_percent" := VNone]> ∅)))
  = Raise KeyError.
Proof.
  apply (system_record_needs_all_fields sample_EMOJIS sample_THRESHOLDS).
  - apply Forall_cons_2; [done|apply Forall_nil_2].
  - reflexivity.
  - intros key v. rewrite lookup_insert. case_decide; [intros [= <-]|].
    + right. by eexists.
    + rewrite lookup_insert. case_decide; [intros [= <-]; by left|].
      by rewrite lookup_empty.
  - apply Exists_cons_tl, Exists_cons_hd. reflexivity.
Defined.

(** X10.  A metric reported as [None] is counted as a check but never as
    critical or moderate: a system record of three [None] adds 3 to
    [total_metrics] and nothing else, so that on its own it makes the
    verdict "good" where no record at all gives "critical". *)
Theorem none_metrics_only_add_to_total
    (EMOJIS : emoji_table) (HEALTH_THRESHOLDS : gmap string (gmap string Qc))
    (lavalink_data : list value) (st : counters) :
  emojis_distinct EMOJIS →
  check_nodes EMOJIS HEALTH_THRESHOLDS lavalink_data no_metrics = Ok st →
  count_metrics EMOJIS HEALTH_THRESHOLDS lavalink_data system_unknown
    = Ok {| critical_count := critical_count st;
            moderate_count := moderate_count st;
            total_metrics := total_metrics st + 3 |} ∧
  get_overall_health EMOJIS HEALTH_THRESHOLDS [] system_unknown = Ok "good" ∧
  get_overall_health EMOJIS HEALTH_THRESHOLDS [] VNone = Ok "critical".
Proof.
  intros Hdistinct Hst.
  assert (∀ st0, check_system EMOJIS HEALTH_THRESHOLDS system_unknown st0
                 = Ok {| critical_count := critical_count st0;
                         moderate_count := moderate_count st0;
                         total_metrics := total_metrics st0 + 3 |}) as Hsys.
  { intros st0. unfold check_system.
    change (truthy system_unknown) with true.
    change (py_getitem system_unknown "cpu_percent") with (Ok VNone).
    change (py_getitem system_unknown "memory_percent") with (Ok VNone).
    change (py_getitem system_unknown "disk_percent") with (Ok VNone).
    rewrite !bind_Ok.
    repeat (rewrite bind_Ok || rewrite get_health_emoji_VNone).
    do 3 (rewrite tally_offline by done).
    simpl. f_equal. f_equal; lia. }
  split; [|split; [|reflexivity]].
  - unfold count_metrics. by rewrite Hst, bind_Ok.
  - unfold get_overall_health, count_metrics. simpl check_nodes.
    rewrite bind_Ok, Hsys, bind_Ok. reflexivity.
Qed.

Lemma none_metrics_only_add_to_total_witness :
  count_metrics sample_EMOJIS sample_THRESHOLDS
    [encode_node node_busy] system_unknown
  = Ok {| critical_count := 2; moderate_count := 1; total_metrics := 6 |}.
Proof.
  apply (none_metrics_only_add_to_total sample_EMOJIS sample_THRESHOLDS
           [encode_node node_busy]
           {| critical_count := 2; moderate_count := 1; total_metrics := 3 |}).
  - exact sample_EMOJIS_distinct.
  - vm_compute. reflexivity.
Defined.

(** X11.  A single online node without a system record: one critical
    check among its three makes the verdict "critical"; without a critical
    one, two moderate checks make it "moderate"; one moderate check alone
    leaves it "good". *)
Theorem lone_node_verdict
    (EMOJIS : emoji_table) (HEALTH_THRESHOLDS : gmap string (gmap string Qc))
    (n : node_record) :
  emojis_distinct EMOJIS →
  nr_online n = true →
  nr_allocated n ≠ Q2Qc 0 →
  get_overall_health EMOJIS HEALTH_THRESHOLDS [encode_node n] VNone =
    Ok (if bool_decide
             (1 ≤ count_level HEALTH_THRESHOLDS Critical (spec_node_checks n))%nat
        then "critical"
        else if bool_decide
             (2 ≤ count_level HEALTH_THRESHOLDS Moderate (spec_node_checks n))%nat
        then "moderate"
        else "good").
Proof.
  intros Hdistinct Hon Halloc.
  pose proof (count_metrics_encode EMOJIS HEALTH_THRESHOLDS [n] None) as Hcount.
  rewrite tally_checks_counts in Hcount by done.
  unfold spec_checks in Hcount. simpl in Hcount. rewrite !app_nil_r in Hcount.
  unfold get_overall_health. rewrite Hcount, bind_Ok.
  2:{ apply Forall_cons_2; [done|apply Forall_nil_2]. }
  rewrite determine_overall_health_integers; simpl;
    rewrite spec_node_checks_length, Hon; [|done].
  repeat case_bool_decide; simpl; try reflexivity; exfalso; lia.
Qed.

Lemma lone_node_verdict_witness :
  get_overall_health sample_EMOJIS sample_THRESHOLDS [encode_node node_edge] VNone
    = Ok "critical".
Proof.
  rewrite (lone_node_verdict sample_EMOJIS sample_THRESHOLDS node_edge);
    [by vm_compute | exact sample_EMOJIS_distinct | reflexivity | done].
Defined.



(** ** [get_status_color] *)

Lemma get_status_color_lookup (health_status : string) :
  get_status_color health_status =
    Ok (if decide (health_status = "good") then 0x00ff00%Z
        else if decide (health_status = "moderate") then 0xff8800%Z
        else if decide (health_status = "critical") then 0xff0000%Z
        else 0x808080%Z).
Proof.
  change (get_status_color health_status)
    with (Ok (default 0x808080%Z (colors !! health_status))).
  unfold colors. f_equal.
  repeat (rewrite lookup_insert; case_decide; [subst; by repeat case_decide|]).
  rewrite lookup_empty. by repeat case_decide.
Qed.

(** X13.  [get_status_color] never raises and returns a 24-bit colour;
    the colour is the grey of "offline" exactly for the statuses other
    than "good", "moderate" and "critical", which have three different
    colours of their own. *)
Theorem status_color_fallback (health_status : string) :
  ∃ c : Z,
    get_status_color health_status = Ok c ∧
    (0 ≤ c < 2 ^ 24)%Z ∧
    (c = 0x808080%Z ↔
       health_status ≠ "good" ∧ health_status ≠ "moderate"
       ∧ health_status ≠ "critical") ∧
    (∀ other : string,
       get_status_color other = Ok c → c ≠ 0x808080%Z →
       other = health_status).
Proof.
  eexists. split; [apply get_status_color_lookup|].
  split; [repeat case_decide; lia|].
  split.
  - repeat case_decide; split; try done; try lia;
      intros (? & ? & ?); done.
  - intros other. rewrite get_status_color_lookup. intros [= Hc] Hgrey.
    repeat case_decide; subst; try done; try lia.
Qed.

(** X14.  The colour of a verdict of [get_overall_health] is green for
    "good", orange for "moderate" and red for "critical", and never the
    grey fallback. *)
Theorem overall_health_color
    (EMOJIS : emoji_table) (HEALTH_THRESHOLDS : gmap string (gmap string Qc))
    (lavalink_data : list value) (system_data : value) (verdict : string) :
  get_overall_health EMOJIS HEALTH_THRESHOLDS lavalink_data system_data
    = Ok verdict →
  ∃ c : Z,
    get_status_color verdict = Ok c ∧ c ≠ 0x808080%Z ∧
    (verdict = "good" → c = 0x00ff00%Z) ∧
    (verdict = "moderate" → c = 0xff8800%Z) ∧
    (verdict = "critical" → c = 0xff0000%Z).
Proof.
  unfold get_overall_health. intros H.
  apply bind_Ok_inv in H as (st & _ & H).
  apply determine_overall_health_labels in H.
  destruct H as [-> | [-> | ->]]; eexists; (split; [reflexivity|]);
    repeat split; done.
Qed.

Lemma overall_health_color_witness :
  ∃ c : Z,
    get_status_color "moderate" = Ok c ∧ c ≠ 0x808080%Z ∧
    ("moderate" = "good" → c = 0x00ff00%Z) ∧
    ("moderate" = "moderate" → c = 0xff8800%Z) ∧
    ("moderate" = "critical" → c = 0xff0000%Z).
Proof.
  apply (overall_health_color sample_EMOJIS sample_THRESHOLDS
           [encode_node node_idle] (encode_system (Some system_loaded))).
  vm_compute. reflexivity.
Defined.

Lemma status_color_fallback_witness :
  ∃ c : Z, get_status_color "Good" = Ok c ∧ c = 0x808080%Z.
Proof.
  destruct (status_color_fallback "Good") as (c & Hc & _ & Hgrey & _).
  exists c. split; [exact Hc|]. apply Hgrey. repeat split; discriminate.
Defined.

(** ** Further properties of [calculate_percentage] *)

Lemma Qc_this_percentage (v total : Qc) :
  ((v / total * Q2Qc 100)%Qc : Q) == (v / total * 100)%Q.
Proof.
  unfold Qcdiv, Qcmult, Qcinv. simpl. rewrite !Qred_correct. reflexivity.
Qed.

Lemma percentage_bounds (v total : Q) :
  (0 < total)%Q →
  ((0 <= v)%Q → (v <= total)%Q →
     (0 <= v / total * 100)%Q ∧ (v / total * 100 <= 100)%Q) ∧
  ((total < v)%Q → (100 < v / total * 100)%Q) ∧
  ((v < 0)%Q → (v / total * 100 < 0)%Q).
Proof.
  intros Htotal. set (w := (v / total)%Q).
  split; [|split].
  - intros Hv0 Hv1.
    assert (0 <= w)%Q.
    { apply Qle_shift_div_l; [done|]. by rewrite Qmult_0_l. }
    assert (w <= 1)%Q.
    { apply Qle_shift_div_r; [done|]. by rewrite Qmult_1_l. }
    split; lra.
  - intros Hv.
    assert (1 < w)%Q.
    { apply Qlt_shift_div_l; [done|]. by rewrite Qmult_1_l. }
    lra.
  - intros Hv.
    assert (w < 0)%Q.
    { apply Qlt_shift_div_r; [done|]. by rewrite Qmult_0_l. }
    lra.
Qed.

(** X15.  The result is not clamped to the range 0 to 100 the docstring
    names: for a positive total it lies in that range when the value lies
    between 0 and the total, but a value above the total gives more than
    100 and a negative value a negative result. *)
Theorem calculate_percentage_range (v total p : Qc) :
  calculate_percentage v total = Ok p →
  (Q2Qc 0 < total)%Qc →
  ((Q2Qc 0 ≤ v)%Qc → (v ≤ total)%Qc → (Q2Qc 0 ≤ p)%Qc ∧ (p ≤ Q2Qc 100)%Qc) ∧
  ((total < v)%Qc → (Q2Qc 100 < p)%Qc) ∧
  ((v < Q2Qc 0)%Qc → (p < Q2Qc 0)%Qc).
Proof.
  intros Hp Htotal. unfold calculate_percentage in Hp.
  assert (total ≠ Q2Qc 0) as Hnz.
  { intros ->. unfold Qclt, Qlt in Htotal. simpl in Htotal. lia. }
  rewrite bool_decide_eq_false_2, num_truediv_Ok, bind_Ok in Hp by done.
  injection Hp as <-.
  destruct (percentage_bounds v total Htotal) as (Hin & Habove & Hbelow).
  unfold Qcle, Qclt. rewrite !Qc_this_percentage.
  split; [|split].
  - intros Hv0 Hv1. exact (Hin Hv0 Hv1).
  - intros Hv. exact (Habove Hv).
  - intros Hv. exact (Hbelow Hv).
Qed.

Lemma calculate_percentage_range_witness :
  (Q2Qc 100 < Q2Qc 150)%Qc.
Proof.
  apply (calculate_percentage_range (Q2Qc 3) (Q2Qc 2) (Q2Qc 150));
    [| by vm_compute | by vm_compute].
  unfold calculate_percentage.
  rewrite bool_decide_eq_false_2, num_truediv_Ok, bind_Ok by by vm_compute.
  f_equal. apply Qc_is_canon. by vm_compute.
Defined.

(** ** Further properties of [get_load_indicator] *)









(** ** [format_uptime] *)

Lemma Qfloor_unique (x : Q) (z : Z) :
  (inject_Z z <= x)%Q → (x < inject_Z (z + 1))%Q → Qfloor x = z.
Proof.
  intros Hle Hlt.
  pose proof (Qfloor_le x) as Hf. pose proof (Qlt_floor x) as Hc.
  assert (inject_Z (Qfloor x) < inject_Z (z + 1))%Q as H1
    by (eapply Qle_lt_trans; eauto).
  assert (inject_Z z < inject_Z (Qfloor x + 1))%Q as H2
    by (eapply Qle_lt_trans; eauto).
  rewrite <- Zlt_Qlt in H1, H2. lia.
Qed.

Lemma this_of_int (z : Z) : (of_int z : Q) = inject_Z z.
Proof.
  unfold of_int. simpl. apply Qred_identity. simpl. apply Z.gcd_1_r.
Qed.

Lemma py_int_of_int (z : Z) : py_int (of_int z) = z.
Proof. unfold py_int. rewrite this_of_int. simpl. apply Z.quot_1_r. Qed.

Lemma py_int_nonneg (x : Qc) : (0 <= x)%Q → py_int x = Qfloor x.
Proof.
  intros Hx. unfold py_int. destruct x as [[a b] Hc]. simpl in *.
  unfold Qle in Hx. simpl in Hx.
  apply Z.quot_div_nonneg; lia.
Qed.

Lemma this_div_of_int (x : Qc) (k : Z) :
  ((x / of_int k)%Qc : Q) == (x / inject_Z k)%Q.
Proof.
  unfold Qcdiv, Qcmult, Qcinv. simpl. rewrite !Qred_correct. reflexivity.
Qed.

Lemma Qfloor_div (x : Q) (k : Z) :
  (0 < k)%Z → Qfloor (x / inject_Z k) = (Qfloor x / k)%Z.
Proof.
  intros Hk. set (n := Qfloor x).
  pose proof (Qfloor_le x) as Hf. pose proof (Qlt_floor x) as Hc. fold n in Hf, Hc.
  pose proof (Z.div_mod n k ltac:(lia)) as Hdm.
  pose proof (Z.mod_pos_bound n k Hk) as Hmod.
  assert (0 < inject_Z k)%Q as Hk' by (rewrite <- (Zlt_Qlt 0); lia).
  apply Qfloor_unique.
  - apply Qle_shift_div_l; [done|]. rewrite <- inject_Z_mult.
    eapply Qle_trans; [|exact Hf]. rewrite <- Zle_Qle. lia.
  - apply Qlt_shift_div_r; [done|]. rewrite <- inject_Z_mult.
    eapply Qlt_le_trans; [exact Hc|]. rewrite <- Zle_Qle. lia.
Qed.

Lemma Qfloor_minus_Z (x : Q) (z : Z) :
  Qfloor (x - inject_Z z) = (Qfloor x - z)%Z.
Proof.
  pose proof (Qfloor_le x) as Hf. pose proof (Qlt_floor x) as Hc.
  apply Qfloor_unique.
  - unfold Z.sub. rewrite inject_Z_plus, inject_Z_opp. lra.
  - replace (Qfloor x - z + 1)%Z with (Qfloor x + 1 + - z)%Z by lia.
    rewrite (inject_Z_plus (Qfloor x + 1)), inject_Z_opp. lra.
Qed.

Lemma this_Q2Qc (q : Q) : (Q2Qc q : Q) == q.
Proof. apply Qred_correct. Qed.

Lemma this_py_floordiv (x : Qc) (k : Z) :
  (0 < k)%Z → (py_floordiv x (of_int k) : Q) = inject_Z (Qfloor x / k).
Proof.
  intros Hk. unfold py_floordiv. rewrite this_of_int.
  by rewrite this_div_of_int, Qfloor_div.
Qed.

Lemma this_py_mod (x : Qc) (k : Z) :
  (0 < k)%Z →
  (py_mod x (of_int k) : Q) == (x - inject_Z (k * (Qfloor x / k)))%Q.
Proof.
  intros Hk. unfold py_mod, Qcminus, Qcplus, Qcopp, Qcmult.
  rewrite !this_Q2Qc, this_py_floordiv, this_of_int, inject_Z_mult by done.
  reflexivity.
Qed.

Lemma Qfloor_py_mod (x : Qc) (k : Z) :
  (0 < k)%Z → Qfloor (py_mod x (of_int k)) = (Qfloor x mod k)%Z.
Proof.
  intros Hk. rewrite this_py_mod by done. rewrite Qfloor_minus_Z.
  rewrite Z.mod_eq by lia. reflexivity.
Qed.

Lemma py_mod_nonneg (x : Qc) (k : Z) :
  (0 < k)%Z → (0 <= py_mod x (of_int k))%Q.
Proof.
  intros Hk. rewrite this_py_mod by done.
  pose proof (Qfloor_le x) as Hf.
  pose proof (Z.mod_pos_bound (Qfloor x) k Hk) as Hmod.
  rewrite Z.mod_eq in Hmod by lia.
  assert (inject_Z (k * (Qfloor x / k)) <= inject_Z (Qfloor x))%Q
    by (rewrite <- Zle_Qle; lia).
  lra.
Qed.

Lemma lt_of_int_floor (x : Qc) (k : Z) :
  (x < of_int k)%Qc ↔ (Qfloor x < k)%Z.
Proof.
  unfold Qclt. rewrite this_of_int.
  pose proof (Qfloor_le x) as Hf. pose proof (Qlt_floor x) as Hc.
  split.
  - intros Hx. rewrite Zlt_Qlt. lra.
  - intros Hn. assert (inject_Z (Qfloor x + 1) <= inject_Z k)%Q
      by (rewrite <- Zle_Qle; lia). lra.
Qed.

Lemma py_int_floordiv (x : Qc) (k : Z) :
  (0 < k)%Z → py_int (py_floordiv x (of_int k)) = (Qfloor x / k)%Z.
Proof.
  intros Hk. unfold py_floordiv.
  by rewrite py_int_of_int, this_div_of_int, Qfloor_div.
Qed.

Lemma py_int_mod (x : Qc) (k : Z) :
  (0 < k)%Z → py_int (py_mod x (of_int k)) = (Qfloor x mod k)%Z.
Proof.
  intros Hk. rewrite py_int_nonneg by by apply py_mod_nonneg.
  by apply Qfloor_py_mod.
Qed.

Lemma format_uptime_whole (x : Qc) :
  (0 <= x)%Q → format_uptime x = uptime_of_whole (Qfloor x).
Proof.
  intros Hx. unfold format_uptime, uptime_of_whole.
  rewrite !(bool_decide_ext _ _ (lt_of_int_floor x _)).
  rewrite (py_int_nonneg x Hx), !py_int_floordiv, py_int_mod by lia.
  rewrite !Qfloor_py_mod by lia.
  repeat case_bool_decide;
    repeat match goal with
           | |- context [(?a <? ?b)%Z] =>
             first [ rewrite (proj2 (Z.ltb_lt a b)) by lia
                   | rewrite (proj2 (Z.ltb_ge a b)) by lia ]
           end; reflexivity.
Qed.

Lemma Qfloor_of_int (n : Z) : Qfloor (of_int n) = n.
Proof. rewrite this_of_int. apply Qfloor_Z. Qed.

Lemma Qfloor_nonneg (x : Qc) : (Q2Qc 0 ≤ x)%Qc → (0 ≤ Qfloor x)%Z.
Proof.
  intros Hx. change (0%Z) with (Qfloor 0). by apply Qfloor_resp_le.
Qed.

(** X18.  A non-negative uptime is formatted from its whole seconds only:
    the fraction of a second is dropped, never rounded up. *)
Theorem format_uptime_whole_seconds (seconds : Qc) :
  (Q2Qc 0 ≤ seconds)%Qc →
  format_uptime seconds = format_uptime (of_int (Qfloor seconds)).
Proof.
  intros Hx. rewrite (format_uptime_whole seconds) by exact Hx.
  rewrite (format_uptime_whole (of_int (Qfloor seconds))).
  - by rewrite Qfloor_of_int.
  - rewrite this_of_int. change 0%Q with (inject_Z 0).
    rewrite <- Zle_Qle. by apply Qfloor_nonneg.
Qed.

Lemma format_uptime_whole_seconds_witness :
  format_uptime (Q2Qc 3599.9) = format_uptime (of_int 3599) ∧
  format_uptime (Q2Qc 3599.9) = "59m 59s".
Proof.
  assert (format_uptime (Q2Qc 3599.9) = format_uptime (of_int 3599)) as H.
  { apply (format_uptime_whole_seconds (Q2Qc 3599.9)). by vm_compute. }
  split; [exact H|]. rewrite H. by vm_compute.
Defined.

(** X19.  The parts of a formatted uptime, for [n] whole seconds: below a
    minute the seconds; below an hour minutes from 1 to 59 and seconds from
    0 to 59 that add up to [n]; below a day hours from 1 to 23 and minutes
    from 0 to 59, the seconds being dropped; from a day on days and hours
    from 0 to 23, the minutes and seconds being dropped. *)
Theorem format_uptime_parts (seconds : Qc) :
  (Q2Qc 0 ≤ seconds)%Qc →
  let n := Qfloor seconds in
  ((n < 60)%Z → format_uptime seconds = str_of_int n +:+ "s") ∧
  ((60 ≤ n < 3600)%Z →
     ∃ minutes secs : Z,
       format_uptime seconds
         = str_of_int minutes +:+ "m " +:+ str_of_int secs +:+ "s" ∧
       (1 ≤ minutes ≤ 59)%Z ∧ (0 ≤ secs ≤ 59)%Z ∧
       n = (60 * minutes + secs)%Z) ∧
  ((3600 ≤ n < 86400)%Z →
     ∃ hours minutes : Z,
       format_uptime seconds
         = str_of_int hours +:+ "h " +:+ str_of_int minutes +:+ "m" ∧
       (1 ≤ hours ≤ 23)%Z ∧ (0 ≤ minutes ≤ 59)%Z ∧
       (3600 * hours + 60 * minutes ≤ n < 3600 * hours + 60 * minutes + 60)%Z) ∧
  ((86400 ≤ n)%Z →
     ∃ days hours : Z,
       format_uptime seconds
         = str_of_int days +:+ "d " +:+ str_of_int hours +:+ "h" ∧
       (1 ≤ days)%Z ∧ (0 ≤ hours ≤ 23)%Z ∧
       (86400 * days + 3600 * hours ≤ n
        < 86400 * days + 3600 * hours + 3600)%Z).
Proof.
  intros Hx n. rewrite (format_uptime_whole seconds) by exact Hx. fold n.
  unfold uptime_of_whole.
  split; [|split; [|split]].
  - intros Hn. by rewrite (proj2 (Z.ltb_lt n 60)).
  - intros [Hlo Hhi].
    rewrite (proj2 (Z.ltb_ge n 60)), (proj2 (Z.ltb_lt n 3600)) by done.
    exists (n / 60)%Z, (n mod 60)%Z. split; [done|].
    pose proof (Z.div_mod n 60 ltac:(lia)).
    pose proof (Z.mod_pos_bound n 60 ltac:(lia)). lia.
  - intros [Hlo Hhi].
    rewrite (proj2 (Z.ltb_ge n 60)) by lia.
    rewrite (proj2 (Z.ltb_ge n 3600)), (proj2 (Z.ltb_lt n 86400)) by done.
    exists (n / 3600)%Z, (n mod 3600 / 60)%Z. split; [done|].
    pose proof (Z.div_mod n 3600 ltac:(lia)).
    pose proof (Z.mod_pos_bound n 3600 ltac:(lia)).
    pose proof (Z.div_mod (n mod 3600) 60 ltac:(lia)).
    pose proof (Z.mod_pos_bound (n mod 3600) 60 ltac:(lia)). lia.
  - intros Hlo.
    rewrite (proj2 (Z.ltb_ge n 60)), (proj2 (Z.ltb_ge n 3600)) by lia.
    rewrite (proj2 (Z.ltb_ge n 86400)) by done.
    exists (n / 86400)%Z, (n mod 86400 / 3600)%Z. split; [done|].
    pose proof (Z.div_mod n 86400 ltac:(lia)).
    pose proof (Z.mod_pos_bound n 86400 ltac:(lia)).
    pose proof (Z.div_mod (n mod 86400) 3600 ltac:(lia)).
    pose proof (Z.mod_pos_bound (n mod 86400) 3600 ltac:(lia)). lia.
Qed.

Lemma format_uptime_parts_witness :
  ∃ hours minutes : Z,
    format_uptime (of_int 7199)
      = str_of_int hours +:+ "h " +:+ str_of_int minutes +:+ "m" ∧
    (1 ≤ hours ≤ 23)%Z ∧ (0 ≤ minutes ≤ 59)%Z ∧
    (3600 * hours + 60 * minutes ≤ Qfloor (of_int 7199)
     < 3600 * hours + 60 * minutes + 60)%Z.
Proof.
  apply (format_uptime_parts (of_int 7199)); [by vm_compute|].
  by vm_compute.
Defined.

(** X20.  A negative uptime is never broken into units: it is printed in
    seconds only, rounded toward zero, so that an uptime between -1 and 0
    prints as "0s". *)
Theorem format_uptime_negative (seconds : Qc) :
  (seconds < Q2Qc 0)%Qc →
  format_uptime seconds = str_of_int (py_int seconds) +:+ "s" ∧
  (seconds <= inject_Z (py_int seconds))%Q ∧
  (py_int seconds ≤ 0)%Z ∧
  (inject_Z (py_int seconds) < seconds + 1)%Q.
Proof.
  intros Hneg. split.
  - unfold format_uptime. rewrite bool_decide_eq_true_2; [done|].
    apply (Qclt_trans _ (Q2Qc 0)); [exact Hneg|by vm_compute].
  - unfold py_int. destruct seconds as [[a b] Hcanon].
    unfold Qclt, Qlt in Hneg. simpl in Hneg.
    unfold Qle, Qlt, Qplus, inject_Z. simpl.
    pose proof (Z.quot_rem' a (Z.pos b)) as Hqr.
    pose proof (Z.rem_nonpos a (Z.pos b) ltac:(lia) ltac:(lia)) as Hrem.
    pose proof (Z.rem_bound_abs a (Z.pos b) ltac:(lia)) as Habs.
    set (q := Z.quot a (Z.pos b)) in *. set (r := Z.rem a (Z.pos b)) in *.
    repeat split; lia || nia.
Qed.

Lemma format_uptime_negative_witness :
  format_uptime (Q2Qc (-0.5)) = "0s" ∧ format_uptime (of_int (-100000)) = "-100000s".
Proof.
  split.
  - destruct (format_uptime_negative (Q2Qc (-0.5))) as [-> _]; by vm_compute.
  - destruct (format_uptime_negative (of_int (-100000))) as [-> _];
      by vm_compute.
Defined.

(** ** Further properties of [format_bytes] *)

(** X21.  A negative byte count stays in the B branch whatever its
    magnitude: it is printed as a minus sign, the digits of its absolute
    value and "B". *)
Theorem format_bytes_negative (bytes_value : Z) :
  (bytes_value < 0)%Z →
  format_bytes bytes_value = "-" +:+ str_of_int (- bytes_value) +:+ "B" ∧
  all_digits (str_of_int (- bytes_value)) = true.
Proof.
  intros Hneg. split.
  - unfold format_bytes. rewrite (proj2 (Z.ltb_lt _ _)) by lia.
    destruct bytes_value as [|p|p]; [lia|lia|reflexivity].
  - apply str_of_int_digits. lia.
Qed.

Lemma format_bytes_negative_witness :
  format_bytes (-5000000) = "-5000000B".
Proof.
  destruct (format_bytes_negative (-5000000)) as [-> _]; [lia|reflexivity].
Defined.

(** X22.  In the KB and MB branches the number printed lies between 1.0
    and 1024.0, and rounding can reach 1024.0 of the smaller unit: byte
    counts from 1048525 up to the MB threshold print as "1024.0KB", and
    those from 1073689396 up to the GB threshold as "1024.0MB". *)
Theorem format_bytes_rounds_up_to_1024 (bytes_value : Z) :
  ((1024 ≤ bytes_value < 1024 ^ 2)%Z →
     ∃ whole digit : Z,
       format_bytes bytes_value
         = str_of_int whole +:+ "." +:+ str_of_int digit +:+ "KB" ∧
       (1 ≤ whole ≤ 1024)%Z ∧ (0 ≤ digit ≤ 9)%Z ∧
       (whole = 1024%Z → digit = 0%Z)) ∧
  ((1024 ^ 2 ≤ bytes_value < 1024 ^ 3)%Z →
     ∃ whole digit : Z,
       format_bytes bytes_value
         = str_of_int whole +:+ "." +:+ str_of_int digit +:+ "MB" ∧
       (1 ≤ whole ≤ 1024)%Z ∧ (0 ≤ digit ≤ 9)%Z ∧
       (whole = 1024%Z → digit = 0%Z)) ∧
  ((1048525 ≤ bytes_value < 1024 ^ 2)%Z →
     format_bytes bytes_value = "1024.0KB") ∧
  ((1073689396 ≤ bytes_value < 1024 ^ 3)%Z →
     format_bytes bytes_value = "1024.0MB").
Proof.
  assert (∀ unit suffix,
    (0 < unit)%Z → (unit ≤ bytes_value < 1024 * unit)%Z →
    ∃ whole digit : Z,
      format_1f (of_int bytes_value / of_int unit)%Qc +:+ suffix
        = str_of_int whole +:+ "." +:+ str_of_int digit +:+ suffix ∧
      (1 ≤ whole ≤ 1024)%Z ∧ (0 ≤ digit ≤ 9)%Z ∧
      (whole = 1024%Z → digit = 0%Z) ∧
      (2 * Z.abs (unit * (10 * whole + digit) - 10 * bytes_value) ≤ unit)%Z)
    as Hunit.
  { intros unit suffix Hunit [Hlo Hhi].
    destruct (format_1f_quotient bytes_value unit ltac:(lia) Hunit)
      as (whole & digit & Hwhole & Hdigit & -> & Hclose).
    exists whole, digit. rewrite !str_app_assoc.
    split; [done|]. repeat split; try lia; nia. }
  unfold format_bytes.
  split; [|split; [|split]].
  - intros [Hlo Hhi].
    rewrite (proj2 (Z.ltb_ge _ 1024)), (proj2 (Z.ltb_lt _ (1024 ^ 2))) by done.
    destruct (Hunit 1024%Z "KB") as (whole & digit & ? & ? & ? & ? & _);
      [lia | lia | eauto 10].
  - intros [Hlo Hhi].
    rewrite (proj2 (Z.ltb_ge _ 1024)) by lia.
    rewrite (proj2 (Z.ltb_ge _ (1024 ^ 2))), (proj2 (Z.ltb_lt _ (1024 ^ 3)))
      by done.
    destruct (Hunit (1024 ^ 2)%Z "MB") as (whole & digit & ? & ? & ? & ? & _);
      [lia | lia | eauto 10].
  - intros [Hlo Hhi].
    rewrite (proj2 (Z.ltb_ge _ 1024)) by lia.
    rewrite (proj2 (Z.ltb_lt _ (1024 ^ 2))) by done.
    destruct (Hunit 1024%Z "KB") as (whole & digit & -> & ? & ? & ? & Hclose);
      [lia | lia |].
    assert (whole = 1024 ∧ digit = 0)%Z as [-> ->] by lia. reflexivity.
  - intros [Hlo Hhi].
    rewrite (proj2 (Z.ltb_ge _ 1024)), (proj2 (Z.ltb_ge _ (1024 ^ 2))) by lia.
    rewrite (proj2 (Z.ltb_lt _ (1024 ^ 3))) by done.
    destruct (Hunit (1024 ^ 2)%Z "MB")
      as (whole & digit & -> & ? & ? & ? & Hclose); [lia | lia |].
    assert (whole = 1024 ∧ digit = 0)%Z as [-> ->] by lia. reflexivity.
Qed.

Lemma format_bytes_rounds_up_to_1024_witness :
  format_bytes 1048550 = "1024.0KB" ∧ format_bytes 1073700000 = "1024.0MB".
Proof.
  split.
  - apply (format_bytes_rounds_up_to_1024 1048550). lia.
  - apply (format_bytes_rounds_up_to_1024 1073700000). lia.
Defined.

(** X23.  "GB" is the last unit: from [1024 ^ 4] bytes on the number
    printed before "GB" is 1024 or more. *)
Theorem format_bytes_no_unit_above_GB (bytes_value : Z) :
  (1024 ^ 4 ≤ bytes_value)%Z →
  ∃ whole digit : Z,
    format_bytes bytes_value
      = str_of_int whole +:+ "." +:+ str_of_int digit +:+ "GB" ∧
    (1024 ≤ whole)%Z ∧ (0 ≤ digit ≤ 9)%Z.
Proof.
  intros Hlo. unfold format_bytes.
  rewrite (proj2 (Z.ltb_ge _ 1024)), (proj2 (Z.ltb_ge _ (1024 ^ 2))) by lia.
  rewrite (proj2 (Z.ltb_ge _ (1024 ^ 3))) by lia.
  destruct (format_1f_quotient bytes_value (1024 ^ 3) ltac:(lia) ltac:(lia))
    as (whole & digit & Hwhole & Hdigit & -> & Hclose).
  exists whole, digit. rewrite !str_app_assoc.
  split; [done|]. split; lia.
Qed.

Lemma format_bytes_no_unit_above_GB_witness :
  ∃ whole digit : Z,
    format_bytes (5 * 1024 ^ 4)
      = str_of_int whole +:+ "." +:+ str_of_int digit +:+ "GB" ∧
    (1024 ≤ whole)%Z ∧ (0 ≤ digit ≤ 9)%Z.
Proof.
  apply (format_bytes_no_unit_above_GB (5 * 1024 ^ 4)). lia.
Defined.

(** ** Further properties of [truncate_string] *)

(** X24.  With a limit below 3 a text longer than the limit is not
    shortened to it: the result has [max 3 (len + max_length)] characters,
    which is more than the limit. *)
Theorem truncate_string_small_limit (text : string) (max_length : Z) :
  (max_length < 3)%Z →
  (max_length < Z.of_nat (String.length text))%Z →
  Z.of_nat (String.length (truncate_string text max_length))
    = Z.max 3 (Z.of_nat (String.length text) + max_length) ∧
  (max_length < Z.of_nat (String.length (truncate_string text max_length)))%Z.
Proof.
  intros Hsmall Hlong.
  assert (Z.of_nat (String.length (truncate_string text max_length))
          = Z.max 3 (Z.of_nat (String.length text) + max_length)) as Hlen.
  { rewrite truncate_string_cut by done. rewrite str_length_app.
    unfold py_slice_to. rewrite (proj2 (Z.ltb_lt _ 0)) by lia.
    rewrite str_take_length. simpl. lia. }
  split; [exact Hlen|]. rewrite Hlen. lia.
Qed.

Lemma truncate_string_small_limit_witness :
  Z.of_nat (String.length (truncate_string "hello" 2)) = 7%Z.
Proof.
  destruct (truncate_string_small_limit "hello" 2) as [-> _];
    [lia | simpl; lia | reflexivity].
Defined.

(** ** Errors and anomalies of [get_overall_health] *)

(** X25.  What is not a dict is not skipped: after well-formed nodes, a
    node that is [None], a boolean or a number ends the call in
    [AttributeError], and a truthy [system_data] that is not a dict in
    [TypeError]. *)
Theorem non_dict_inputs_raise
    (EMOJIS : emoji_table) (HEALTH_THRESHOLDS : gmap string (gmap string Qc))
    (nodes : list node_record) (v : value) (rest : list value)
    (system_data : value) :
  Forall (λ n, nr_online n = true → nr_allocated n ≠ Q2Qc 0) nodes →
  ¬ is_dict v →
  get_overall_health EMOJIS HEALTH_THRESHOLDS
    ((encode_node <$> nodes) ++ v :: rest) system_data = Raise AttributeError ∧
  (truthy v = true →
   get_overall_health EMOJIS HEALTH_THRESHOLDS (encode_node <$> nodes) v
     = Raise TypeError).
Proof.
  intros Hnodes Hv. unfold get_overall_health, count_metrics. split.
  - rewrite check_nodes_app, check_nodes_encode, bind_Ok by done.
    destruct v; try done; by destruct Hv.
  - intros Htruthy. rewrite check_nodes_encode, bind_Ok by done.
    unfold check_system. rewrite Htruthy.
    destruct v; try done; by destruct Hv.
Qed.

Lemma non_dict_inputs_raise_witness :
  get_overall_health sample_EMOJIS sample_THRESHOLDS
    ((encode_node <$> [node_idle]) ++ VNone :: [encode_node node_busy]) VNone
  = Raise AttributeError ∧
  get_overall_health sample_EMOJIS sample_THRESHOLDS
    (encode_node <$> [node_idle]) (VNum (Q2Qc 5)) = Raise TypeError.
Proof.
  assert (Forall (λ n, nr_online n = true → nr_allocated n ≠ Q2Qc 0) [node_idle])
    as Hnodes by (apply Forall_cons_2; [done|apply Forall_nil_2]).
  split.
  - apply (non_dict_inputs_raise sample_EMOJIS sample_THRESHOLDS
             [node_idle] VNone); [exact Hnodes | by intros []].
  - destruct (non_dict_inputs_raise sample_EMOJIS sample_THRESHOLDS
                [node_idle] (VNum (Q2Qc 5)) [] VNone Hnodes) as [_ Hsys];
      [by intros [] | by apply Hsys].
Defined.

(** X26.  The verdict is not monotone in the checks: with at least 10
    checks, none critical, and just over half of them moderate the verdict
    is "moderate", and when one of those moderate checks turns critical,
    everything else being equal, the verdict becomes "good". *)
Theorem verdict_not_monotone
    (EMOJIS : emoji_table) (HEALTH_THRESHOLDS : gmap string (gmap string Qc))
    (lavalink_data lavalink_data' : list value) (system_data : value)
    (st st' : counters) :
  count_metrics EMOJIS HEALTH_THRESHOLDS lavalink_data system_data = Ok st →
  count_metrics EMOJIS HEALTH_THRESHOLDS lavalink_data' system_data = Ok st' →
  (10 ≤ total_metrics st)%nat →
  critical_count st = 0%nat →
  (total_metrics st < 2 * moderate_count st ≤ total_metrics st + 2)%nat →
  total_metrics st' = total_metrics st →
  critical_count st' = 1%nat →
  moderate_count st = S (moderate_count st') →
  get_overall_health EMOJIS HEALTH_THRESHOLDS lavalink_data system_data
    = Ok "moderate" ∧
  get_overall_health EMOJIS HEALTH_THRESHOLDS lavalink_data' system_data
    = Ok "good".
Proof.
  intros Hst Hst' Hten Hc Hm Ht' Hc' Hm'.
  unfold get_overall_health. rewrite Hst, Hst', !bind_Ok.
  rewrite !determine_overall_health_integers by lia.
  split; repeat case_bool_decide; simpl; try reflexivity; exfalso; lia.
Qed.

Lemma verdict_not_monotone_witness :
  get_overall_health sample_EMOJIS sample_THRESHOLDS
    (encode_node <$> [node_strained; node_strained; node_warm; node_idle]) VNone
    = Ok "moderate" ∧
  get_overall_health sample_EMOJIS sample_THRESHOLDS
    (encode_node <$> [node_strained; node_strained; node_hot; node_idle]) VNone
    = Ok "good".
Proof.
  apply (verdict_not_monotone sample_EMOJIS sample_THRESHOLDS _ _ _
           {| critical_count := 0; moderate_count := 7; total_metrics := 12 |}
           {| critical_count := 1; moderate_count := 6; total_metrics := 12 |});
    try (vm_compute; reflexivity); simpl; lia.
Defined.
